(** * AI-Data-Analyst-app: a shallow embedding of [app.py]

    The script uploads CSV files into an in-memory SQLite connection, builds
    a textual schema, asks a hosted language model for one SQL statement,
    runs it, and asks the model again for a short summary.

    Python [str] values are modelled as lists of 8-bit code points
    ([list ascii], i.e. text whose code points are below 256); the string
    methods the script calls ([replace], [split], [strip], [lower], [join])
    are written out below with Python's behaviour on that range.  The
    libraries the script calls into (pandas, sqlite3, the Groq client) are
    an interface record, so every general theorem holds for any behaviour of
    those libraries; [Fake] gives one concrete implementation used to run
    the script on concrete inputs. *)

From Stdlib Require Import Ascii String Arith ZArith Lia Bool List.
Import ListNotations.
Local Open Scope list_scope.

(** ** Python strings *)

Module PyStr.

Definition str := list ascii.

(** A string literal. *)
Definition lit (x : string) : str := list_ascii_of_string x.

(** [s.startswith(p)] *)
Fixpoint startswith (p s : str) : bool :=
  match p, s with
  | [], _ => true
  | _ :: _, [] => false
  | a :: p', b :: s' => Ascii.eqb a b && startswith p' s'
  end.

(** [sub in s] *)
Fixpoint contains (sub s : str) : bool :=
  startswith sub s ||
  match s with
  | [] => false
  | _ :: s' => contains sub s'
  end.

(** [s.replace(old, new)]: occurrences of [old] are found left to right and
    do not overlap.  [skip] counts the characters of a matched occurrence
    that are still to be passed over.  With an empty [old] Python puts [new]
    before every character and at the end. *)
Fixpoint replace_from (old new : str) (skip : nat) (s : str) : str :=
  match s with
  | [] => []
  | c :: s' =>
      match skip with
      | S k => replace_from old new k s'
      | O =>
          if startswith old s
          then new ++ replace_from old new (length old - 1) s'
          else c :: replace_from old new 0 s'
      end
  end.

Definition replace (old new s : str) : str :=
  match old with
  | [] => new ++ flat_map (fun c => c :: new) s
  | _ :: _ => replace_from old new 0 s
  end.

(** [s.split(sep)] for a non-empty [sep] (Python raises [ValueError] on an
    empty separator; the script only passes [";"]).  The head of the
    result is the piece being read. *)
Definition push_char (c : ascii) (ps : list str) : list str :=
  match ps with
  | [] => [[c]]
  | p :: ps' => (c :: p) :: ps'
  end.

Fixpoint split_from (sep : str) (skip : nat) (s : str) : list str :=
  match s with
  | [] => [[]]
  | c :: s' =>
      match skip with
      | S k => split_from sep k s'
      | O =>
          if startswith sep s
          then [] :: split_from sep (length sep - 1) s'
          else push_char c (split_from sep 0 s')
      end
  end.

Definition split (sep s : str) : list str := split_from sep 0 s.

(** [sep.join(parts)] *)
Fixpoint join (sep : str) (parts : list str) : str :=
  match parts with
  | [] => []
  | [p] => p
  | p :: ps => p ++ sep ++ join sep ps
  end.

(** [c.isspace()] on code points below 256: tab to carriage return, the
    four information separators, space, NEL and the no-break space. *)
Definition isspace (c : ascii) : bool :=
  let n := nat_of_ascii c in
  ((9 <=? n) && (n <=? 13)) || ((28 <=? n) && (n <=? 32))
  || (n =? 133) || (n =? 160).

Fixpoint lstrip (s : str) : str :=
  match s with
  | [] => []
  | c :: s' => if isspace c then lstrip s' else s
  end.

Definition rstrip (s : str) : str := rev (lstrip (rev s)).

(** [s.strip()] *)
Definition strip (s : str) : str := rstrip (lstrip s).

(** [c.isupper()] on code points below 256: A-Z and the Latin-1 capitals
    (0xC0-0xDE without the multiplication sign 0xD7). *)
Definition isupper (c : ascii) : bool :=
  let n := nat_of_ascii c in
  ((65 <=? n) && (n <=? 90)) || ((192 <=? n) && (n <=? 214))
  || ((216 <=? n) && (n <=? 222)).

Definition lower_char (c : ascii) : ascii :=
  if isupper c then ascii_of_nat (nat_of_ascii c + 32) else c.

(** [s.lower()] *)
Definition lower (s : str) : str := map lower_char s.

(** [s.endswith(p)] *)
Definition endswith (p s : str) : bool := startswith (rev p) (rev s).

End PyStr.

Import PyStr.

(** ** Exceptions, results and the script's effects *)

(** A raised exception: whether its class derives from [Exception] (what
    [except Exception] catches) and the text of [str(e)]. *)
Record exn := { is_exception : bool; message : str }.

Inductive outcome (A : Type) : Type :=
| Return (a : A)
| Raise (e : exn).
Arguments Return {A} a.
Arguments Raise {A} e.

Definition bind_outcome {A B} (x : outcome A) (k : A -> outcome B)
  : outcome B :=
  match x with
  | Return a => k a
  | Raise e => Raise e
  end.

(** What Streamlit has been asked to show. *)
Inductive widget :=
| StInfo (text : str)
| StSuccess (text : str)
| StError (text : str).

(** The effects the functions below have: widgets shown so far (latest
    last) and the number of requests sent to the hosted model. *)
Record World := { shown : list widget; calls : nat }.

Definition M (A : Type) : Type := World -> outcome A * World.

Definition ret {A} (a : A) : M A := fun w => (Return a, w).

Definition bind {A B} (m : M A) (k : A -> M B) : M B :=
  fun w =>
    match m w with
    | (Return a, w') => k a w'
    | (Raise e, w') => (Raise e, w')
    end.

Definition show (x : widget) : M unit :=
  fun w => (Return tt, {| shown := shown w ++ [x]; calls := calls w |}).

Declare Scope script_scope.
Delimit Scope script_scope with script.
Notation "x <- m ;; k" := (bind m (fun x => k))
  (at level 61, m at next level, right associativity) : script_scope.
Notation "m ;;; k" := (bind m (fun _ => k))
  (at level 61, right associativity) : script_scope.
Notation "x <~ m ;; k" := (bind_outcome m (fun x => k))
  (at level 61, m at next level, right associativity) : script_scope.

(** ** Data model *)

(** A cell of a frame.  Floating-point cells are not represented: nothing
    below looks inside a cell. *)
Inductive cell :=
| CInt (z : Z)
| CText (t : str)
| CNull.

(** A pandas [DataFrame] written without its index: column labels and rows. *)
Record DataFrame := { columns : list str; rows : list (list cell) }.

(** [pd.DataFrame()] *)
Definition empty_frame : DataFrame := {| columns := []; rows := [] |}.

(** [df.empty]: some axis has length zero. *)
Definition df_empty (df : DataFrame) : bool :=
  (length (columns df) =? 0) || (length (rows df) =? 0).

(** [df.head(n)] *)
Definition head (n : nat) (df : DataFrame) : DataFrame :=
  {| columns := columns df; rows := firstn n (rows df) |}.

(** [df.columns = cols] *)
Definition set_columns (cols : list str) (df : DataFrame) : DataFrame :=
  {| columns := cols; rows := rows df |}.

(** An uploaded file: its name and its bytes. *)
Record UploadedFile := { name : str; data : str }.

(** The in-memory SQLite connection: its tables in creation order. *)
Definition Conn := list (str * DataFrame).

Definition str_eqb (a b : str) : bool :=
  if list_eq_dec ascii_dec a b then true else false.

Fixpoint lookup_table (table : str) (conn : Conn) : option DataFrame :=
  match conn with
  | [] => None
  | (t, df) :: conn' =>
      if str_eqb t table then Some df else lookup_table table conn'
  end.

Definition drop_table (table : str) (conn : Conn) : Conn :=
  filter (fun r => negb (str_eqb (fst r) table)) conn.

Definition create_table (table : str) (df : DataFrame) (conn : Conn) : Conn :=
  conn ++ [(table, df)].

Definition table_names (conn : Conn) : list str := map fst conn.

(** A chat completion request: the messages are (role, content) pairs and
    the temperature is a fraction, [(1, 10)] for [0.1]. *)
Record Request := {
  model : str;
  messages : list (str * str);
  temperature : nat * nat;
  max_tokens : nat
}.

(** ** The libraries the script calls *)

Record Libs := {
  (** [pd.read_csv(file)] *)
  read_csv : UploadedFile -> outcome DataFrame;
  (** the exception, if any, with which the engine refuses to create and
      fill the table in [df.to_sql(table, conn, ...)] *)
  to_sql_error : str -> DataFrame -> option exn;
  (** [pd.read_sql_query(query, conn)] *)
  read_sql_query : str -> Conn -> outcome DataFrame;
  (** [df.to_string(index=False)] *)
  to_string : DataFrame -> str;
  (** [client.chat.completions.create(...).choices[0].message.content];
      the first argument is the number of requests sent before this one,
      so that equal requests may be answered differently *)
  create : nat -> Request -> outcome str
}.

(** ** The script *)

Local Open Scope script_scope.

Definition nl : str := [ascii_of_nat 10].

(** The en dash of the summary prompt (U+2013) lies outside the 8-bit
    range; it is carried as its three UTF-8 bytes. *)
Definition en_dash : str := [ascii_of_nat 226; ascii_of_nat 128; ascii_of_nat 147].

(** [table = file.name.replace(".csv","").lower().replace(" ","_")] *)
Definition table_name (file_name : str) : str :=
  replace (lit " ") (lit "_") (lower (replace (lit ".csv") (lit "") file_name)).

(** [c.strip().replace(" ", "_")] *)
Definition normalize_column (c : str) : str :=
  replace (lit " ") (lit "_") (strip c).

(** [f"{table}({', '.join(df.columns)})\n"] *)
Definition schema_line (table : str) (cols : list str) : str :=
  table ++ lit "(" ++ join (lit ", ") cols ++ lit ")" ++ nl.

(** The globals the upload loop builds. *)
Record Store := { conn : Conn; schema : str }.

Definition empty_store : Store := {| conn := []; schema := [] |}.

Section Script.

Variable L : Libs.

(** [df.to_sql(table, conn, index=False, if_exists="replace")]: an
    existing table of that name is dropped, then the table is created and
    filled from the frame. *)
Definition to_sql (table : str) (c : Conn) (df : DataFrame) : outcome Conn :=
  match to_sql_error L table df with
  | Some e => Raise e
  | None => Return (create_table table df (drop_table table c))
  end.

(** The body of [for file in files]. *)
Definition load_file (st : Store) (file : UploadedFile) : outcome Store :=
  df <~ read_csv L file ;;
  let table := table_name (name file) in
  let df := set_columns (map normalize_column (columns df)) df in
  c <~ to_sql table (conn st) df ;;
  Return {| conn := c;
            schema := schema st ++ schema_line table (columns df) |}.

Fixpoint load_files (st : Store) (files : list UploadedFile) : outcome Store :=
  match files with
  | [] => Return st
  | file :: rest => st' <~ load_file st file ;; load_files st' rest
  end.

(** [st.stop()] ends the run with a script-control exception, which is not
    an [Exception]. *)
Definition stop_exception : exn :=
  {| is_exception := false; message := lit "StopException" |}.

(** Lines 22-41: the upload section. *)
Definition upload (files : list UploadedFile) : M Store :=
  match files with
  | [] =>
      show (StInfo (lit "Upload CSV files to begin")) ;;;
      (fun w => (Raise stop_exception, w))
  | _ :: _ =>
      fun w =>
        match load_files empty_store files with
        | Raise e => (Raise e, w)
        | Return st => (show (StSuccess (lit "Data loaded")) ;;; ret st) w
        end
  end.

(** [run_sql(query)] *)
Definition run_sql (c : Conn) (query : str) : M DataFrame :=
  match read_sql_query L query c with
  | Return df => ret df
  | Raise e =>
      if is_exception e
      then show (StError (lit "SQL Error: " ++ message e)) ;;; ret empty_frame
      else fun w => (Raise e, w)
  end.

Definition system_message : str :=
  lit "You are a SQL and business analytics expert.".

Definition request (prompt : str) : Request :=
  {| model := lit "llama-3.1-8b-instant";
     messages := [(lit "system", system_message); (lit "user", prompt)];
     temperature := (1, 10);
     max_tokens := 600 |}.

(** [call_ai(prompt)] *)
Definition call_ai (prompt : str) : M str :=
  fun w =>
    let w' := {| shown := shown w; calls := S (calls w) |} in
    match create L (calls w) (request prompt) with
    | Return content => (Return (strip content), w')
    | Raise e => (Raise e, w')
    end.

Definition ask_prompt (schema question : str) : str :=
  join nl
    [ lit "";
      lit "You are a data analyst.";
      lit "";
      lit "Here is the database schema:";
      schema;
      lit "";
      lit "Rules:";
      lit "- Use only these tables and columns";
      lit "- Use table.column format";
      lit "- No guessing columns";
      lit "- If revenue not present, calculate as quantity * price";
      lit "- Write ONE SQLite query";
      lit "- No explanation";
      lit "";
      lit "User question:";
      question;
      lit "" ].

(** [IndexError], raised by [xs[0]] on an empty list. *)
Definition index_error : exn :=
  {| is_exception := true; message := lit "list index out of range" |}.

(** Lines 84-85: what [ask_ai] does with the model's answer. *)
Definition first_statement (raw : str) : outcome str :=
  let raw := strip (replace (lit "```") (lit "")
                      (replace (lit "```sql") (lit "") raw)) in
  match split (lit ";") raw with
  | first :: _ => Return (first ++ lit ";")
  | [] => Raise index_error
  end.

(** [ask_ai(question)] *)
Definition ask_ai (schema question : str) : M str :=
  raw <- call_ai (ask_prompt schema question) ;;
  (fun w => (first_statement raw, w)).

Definition explain_prompt (preview : str) : str :=
  join nl
    [ lit "";
      lit "You are a senior business analyst.";
      lit "";
      lit "Here is a table of results:";
      preview;
      lit "";
      lit "Write a clear 2" ++ en_dash ++ lit "3 sentence business summary.";
      lit "Do not mention SQL.";
      lit "Do not repeat the numbers exactly.";
      lit "Explain what this means for the business.";
      lit "" ].

Definition no_data : str := lit "No data was returned for this question.".

(** [explain(df)] *)
Definition explain (df : DataFrame) : M str :=
  if df_empty df then ret no_data
  else
    let preview := to_string L (head 10 df) in
    call_ai (explain_prompt preview).

End Script.

(** ** The specification's reading of the table name *)

(** The file name without its extension: a final [".csv"] is cut off. *)
Definition without_extension (file_name : str) : str :=
  if endswith (lit ".csv") file_name
  then firstn (length file_name - 4) file_name
  else file_name.

(** "file name without extension, lower-cased, spaces replaced with
    underscores" *)
Definition spec_table_name (file_name : str) : str :=
  replace (lit " ") (lit "_") (lower (without_extension file_name)).

(** ** Stand-ins for the libraries

    One concrete behaviour of the libraries, for running the script on
    concrete inputs: a reader of plain comma-separated text, an engine
    that refuses repeated column names and answers [SELECT * FROM t;], and
    a model client with a scripted answer. *)

Module Fake.

Definition error (text : string) : exn :=
  {| is_exception := true; message := lit text |}.

Definition nonblank (line : str) : bool := negb (length line =? 0).

Definition fields (line : str) : list str := split (lit ",") line.

Definition csv_reader (file : UploadedFile) : outcome DataFrame :=
  match filter nonblank (split nl (data file)) with
  | [] => Raise (error "No columns to parse from file")
  | header :: body =>
      let cols := fields header in
      if forallb (fun r => length (fields r) <=? length cols) body
      then Return {| columns := cols;
                     rows := map (fun r => map CText (fields r)) body |}
      else Raise (error "Error tokenizing data")
  end.

Fixpoint has_duplicate (xs : list str) : bool :=
  match xs with
  | [] => false
  | x :: xs' => existsb (str_eqb x) xs' || has_duplicate xs'
  end.

Definition engine_refuses (table : str) (df : DataFrame) : option exn :=
  if has_duplicate (columns df)
  then Some (error "duplicate column name")
  else None.

Definition select_all : str := lit "SELECT * FROM ".

Definition engine_query (query : str) (c : Conn) : outcome DataFrame :=
  if startswith select_all query && endswith (lit ";") query
  then
    let table := removelast (skipn (length select_all) query) in
    match lookup_table table c with
    | Some df => Return df
    | None => Raise (error "no such table")
    end
  else Raise (error "syntax error").

Definition render (df : DataFrame) : str :=
  join nl (join (lit " ") (columns df)
             :: map (fun r => join (lit " ")
                                (map (fun x => match x with
                                               | CText t => t
                                               | CInt _ => lit "#"
                                               | CNull => lit "NaN"
                                               end) r))
                    (rows df)).

(** The libraries with a model that gives the same [answer] to every
    request. *)
Definition libs (answer : outcome str) : Libs :=
  {| read_csv := csv_reader;
     to_sql_error := engine_refuses;
     read_sql_query := engine_query;
     to_string := render;
     create := fun _ _ => answer |}.

End Fake.

(** ** Constants and measures used in the statements *)

Definition semicolon : ascii := ";"%char.
Definition backtick : ascii := "`"%char.
Definition fence : str := lit "```".

(** The number of backticks a text starts with. *)
Fixpoint leading_ticks (s : str) : nat :=
  match s with
  | [] => 0
  | c :: s' => if Ascii.eqb backtick c then S (leading_ticks s') else 0
  end.

(** What [ask_ai] keeps of an answer before it cuts at the first [";"]. *)
Definition cleaned (raw : str) : str :=
  strip (replace (lit "```") (lit "") (replace (lit "```sql") (lit "") raw)).

(** [" "] to ["_"], other characters unchanged. *)
Definition underscore_space (c : ascii) : ascii :=
  if Ascii.eqb " "%char c then "_"%char else c.

(** [p] holds no occurrence of [sep]. *)
Definition sep_free (sep p : str) : Prop := contains sep p = false.

(** No proper end of [sep] is also a beginning of it. *)
Definition borderless (sep : str) : Prop :=
  forall x y z, sep = x ++ y -> sep = y ++ z -> y = [] \/ x = [].

(** What follows a piece: nothing, or the separator and the rest. *)
Definition goes_on (sep t : str) : Prop := t = [] \/ exists r, t = sep ++ r.

(** The frame the upload loop stores for a file read as [df]. *)
Definition stored_frame (df : DataFrame) : DataFrame :=
  set_columns (map normalize_column (columns df)) df.

(** The table name a file is loaded under. *)
Definition derived (file : UploadedFile) : str := table_name (name file).

(** The store once [file], read as [df], has been written to it. *)
Definition after_load (st : Store) (file : UploadedFile) (df : DataFrame)
  : Store :=
  {| conn := create_table (derived file) (stored_frame df)
               (drop_table (derived file) (conn st));
     schema := schema st
               ++ schema_line (derived file) (columns (stored_frame df)) |}.

(** ** Sample inputs *)

Module Sample.

Definition start : World := {| shown := []; calls := 0 |}.

Definition fenced_answer : str := lit "```sql SELECT 1; SELECT 2;```".

Definition timed_out : exn := Fake.error "Request timed out.".

Definition sales_csv : UploadedFile :=
  {| name := lit "sales.csv";
     data := lit "Date, Product, Quantity, Price" ++ nl
             ++ lit "2024-01-01, Widget, 2, 9.99" ++ nl |}.

(** An empty upload: pandas finds no columns to parse. *)
Definition broken_csv : UploadedFile :=
  {| name := lit "broken.csv"; data := lit "" |}.

Definition sales_old : UploadedFile :=
  {| name := lit "sales.csv";
     data := lit "item,qty" ++ nl ++ lit "pen,3" ++ nl ++ lit "ink,1" ++ nl |}.

Definition sales_new : UploadedFile :=
  {| name := lit "Sales.csv";
     data := lit "region" ++ nl ++ lit "north" ++ nl |}.

(** The store once [sales_old] has been uploaded. *)
Definition store_with_sales_old : Store :=
  {| conn := [(lit "sales",
               {| columns := [lit "item"; lit "qty"];
                  rows := [[CText (lit "pen"); CText (lit "3")];
                           [CText (lit "ink"); CText (lit "1")]] |})];
     schema := lit "sales(item, qty)" ++ nl |}.

Definition libs : Libs := Fake.libs (Return fenced_answer).

End Sample.

(** ** The specification's reading of the schema description *)

(** One line [name(col1, col2, ...)] per relation of the store. *)
Definition describe (c : Conn) : str :=
  concat (map (fun r => schema_line (fst r) (columns (snd r))) c).

(** ** The rest of the page: question, chart, download and insight

    Lines 110-169.  Widgets whose text is fixed (title, caption, headers,
    labels) are left out; what the page shows that depends on the data is
    returned as a [Page], and [st.info] and [st.error] go to [shown] as
    before. *)

(** What is handed to matplotlib: the call ([ax.bar], [ax.plot] or
    [ax.pie]), the column on the category axis, the column of values and
    the title, if one is set.  Figure size, marker, rotation and number
    format are constants of the calls. *)
Inductive chart_call := AxBar | AxPlot | AxPie.

Record Chart := {
  call : chart_call;
  x_column : str;
  y_column : str;
  title : option str
}.

Record PageLibs := {
  (** whether the dtype of the column at this position is a number, as
      [df.select_dtypes(include="number")] decides it *)
  is_number : DataFrame -> nat -> bool;
  (** the exception, if any, raised while the chart is drawn and handed to
      [st.pyplot] *)
  pyplot_error : DataFrame -> Chart -> option exn;
  (** the bytes [df.to_excel(excel_buffer, index=False)] writes *)
  to_excel : DataFrame -> outcome str
}.

(** What one run of the page shows: the statement given to [st.code] (with
    it the result is given to [st.dataframe]), the frame the chart, the
    download and the insight are made from, the chart given to [st.pyplot],
    the bytes behind the download button and the text given to [st.write]. *)
Record Page := {
  sql : option str;
  result : DataFrame;
  chart : option Chart;
  excel : str;
  summary : str
}.

(** [raise e] *)
Definition raise {A} (e : exn) : M A := fun w => (Raise e, w).

(** A library call that may raise. *)
Definition lift {A} (x : outcome A) : M A := fun w => (x, w).

(** [NameError], raised on reading a variable that was never assigned. *)
Definition name_error : exn :=
  {| is_exception := true; message := lit "name 'df' is not defined" |}.

Definition not_enough : str :=
  lit "Not enough categorical + numeric data to create a chart.".

Section Page.

Variable L : Libs.
Variable P : PageLibs.

(** The body of [for file in files], with the variable [df] it leaves. *)
Definition load_file_df (st : Store) (file : UploadedFile)
  : outcome (Store * DataFrame) :=
  df <~ read_csv L file ;;
  let table := table_name (name file) in
  let df := set_columns (map normalize_column (columns df)) df in
  c <~ to_sql L table (conn st) df ;;
  Return ({| conn := c;
             schema := schema st ++ schema_line table (columns df) |}, df).

(** The loop; [df] is [None] as long as the variable is unassigned. *)
Fixpoint load_files_df (st : Store) (df : option DataFrame)
  (files : list UploadedFile) : outcome (Store * option DataFrame) :=
  match files with
  | [] => Return (st, df)
  | file :: rest =>
      r <~ load_file_df st file ;;
      load_files_df (fst r) (Some (snd r)) rest
  end.

(** [df.select_dtypes(include="number").columns] for [number = true],
    [df.select_dtypes(exclude="number").columns] for [number = false]. *)
Definition select_dtypes (number : bool) (df : DataFrame) : list str :=
  map snd
    (filter (fun ic => Bool.eqb (is_number P df (fst ic)) number)
       (combine (seq 0 (length (columns df))) (columns df))).

(** Lines 130-150: the chart for the chosen type; no branch is taken for
    a type that is none of the three. *)
Definition chart_for (chart_type x y : str) : option Chart :=
  if str_eqb chart_type (lit "Bar")
  then Some {| call := AxBar; x_column := x; y_column := y; title := None |}
  else if str_eqb chart_type (lit "Line")
  then Some {| call := AxPlot; x_column := x; y_column := y; title := None |}
  else if str_eqb chart_type (lit "Pie")
  then Some {| call := AxPie; x_column := x; y_column := y;
               title := Some (y ++ lit " by " ++ x) |}
  else None.

(** Lines 123-152 *)
Definition chart_section (df : DataFrame) (chart_type : str)
  : M (option Chart) :=
  let numeric_cols := select_dtypes true df in
  let categorical_cols := select_dtypes false df in
  if (1 <=? length numeric_cols) && (1 <=? length categorical_cols)
  then
    match categorical_cols, numeric_cols with
    | x :: _, y :: _ =>
        match chart_for chart_type x y with
        | Some c =>
            match pyplot_error P df c with
            | Some e => raise e
            | None => ret (Some c)
            end
        | None => ret None
        end
    | _, _ => raise index_error
    end
  else show (StInfo not_enough) ;;; ret None.

(** Lines 112-117: [df] is assigned again only when Run was pressed and
    the question is not empty. *)
Definition question_section (st : Store) (df : option DataFrame)
  (pressed : bool) (question : str) : M (option str * option DataFrame) :=
  if pressed && negb (length question =? 0)
  then
    sql <- ask_ai L (schema st) question ;;
    df <- run_sql L (conn st) sql ;;
    ret (Some sql, Some df)
  else ret (None, df).

(** Lines 110-169 *)
Definition page (st : Store) (df : option DataFrame) (pressed : bool)
  (question chart_type : str) : M Page :=
  r <- question_section st df pressed question ;;
  match snd r with
  | None => raise name_error
  | Some df =>
      c <- chart_section df chart_type ;;
      data <- lift (to_excel P df) ;;
      text <- explain L df ;;
      ret {| sql := fst r; result := df; chart := c;
             excel := data; summary := text |}
  end.

(** One run of the script. *)
Definition script (files : list UploadedFile) (pressed : bool)
  (question chart_type : str) : M Page :=
  match files with
  | [] =>
      show (StInfo (lit "Upload CSV files to begin")) ;;;
      raise stop_exception
  | _ :: _ =>
      fun w =>
        match load_files_df empty_store None files with
        | Raise e => (Raise e, w)
        | Return (st, df) =>
            (show (StSuccess (lit "Data loaded")) ;;;
             page st df pressed question chart_type) w
        end
  end.

End Page.

(** ** Stand-ins for the page's libraries *)

Module FakePage.

Definition is_int (x : cell) : bool :=
  match x with
  | CInt _ => true
  | _ => false
  end.

(** A column is a number column when it holds integers only. *)
Definition int_column (df : DataFrame) (i : nat) : bool :=
  forallb (fun r => is_int (nth i r CNull)) (rows df).

Definition libs : PageLibs :=
  {| is_number := int_column;
     pyplot_error := fun _ _ => None;
     to_excel := fun df => Return (Fake.render df) |}.

(** Revenue by product, as a query would return it. *)
Definition revenue : DataFrame :=
  {| columns := [lit "product"; lit "revenue"];
     rows := [[CText (lit "Widget"); CInt 20];
              [CText (lit "Gadget"); CInt 35]] |}.

End FakePage.

(** ** Measures used in the further statements *)

(** The text is empty or begins with a character that is not whitespace. *)
Definition starts_clean (s : str) : bool :=
  match s with
  | [] => true
  | c :: _ => negb (isspace c)
  end.

(** The text is empty or ends with a character that is not whitespace. *)
Definition ends_clean (s : str) : bool := starts_clean (rev s).

(** A file that can be read and whose frame the engine accepts. *)
Definition loadable (L : Libs) (file : UploadedFile) : Prop :=
  exists df, read_csv L file = Return df
             /\ to_sql_error L (derived file) (stored_frame df) = None.

(** ** Further sample inputs *)

Module Batch.

Definition stock_csv : UploadedFile :=
  {| name := lit "Stock Levels.csv";
     data := lit "Item Name,On Hand" ++ nl ++ lit "pen,40" ++ nl |}.

(** Two columns that get the same name once normalized. *)
Definition clash_csv : UploadedFile :=
  {| name := lit "clash.csv";
     data := lit "unit price,unit_price" ++ nl ++ lit "1,2" ++ nl |}.

End Batch.

(** The run sends at most [k] requests to the model. *)
Definition at_most (k : nat) {A : Type} (m : M A) : Prop :=
  forall w, calls (snd (m w)) <= calls w + k.

(** [w] with one more widget shown. *)
Definition showing (x : widget) (w : World) : World :=
  {| shown := shown w ++ [x]; calls := calls w |}.

(** The labels of the columns, numbered from [start], whose flag is [b]. *)
Definition pick (f : nat -> bool) (b : bool) (start : nat) (cols : list str)
  : list str :=
  map snd (filter (fun ic : nat * str => Bool.eqb (f (fst ic)) b)
             (combine (seq start (length cols)) cols)).

(** ** The connection when the upload loop is left

    The loop writes to [conn] and [schema] in place, so when an iteration
    raises, what the earlier iterations wrote is still there.
    [load_files_upto] gives the store built by the iterations that ran to
    their end, and the exception of the iteration that did not, if there is
    one.  When [pd.read_csv] raises, that iteration has written nothing, so
    this is the store as the exception leaves it; what a refused
    [df.to_sql] leaves of the table it was replacing is not modelled. *)
Fixpoint load_files_upto (L : Libs) (st : Store) (files : list UploadedFile)
  : Store * option exn :=
  match files with
  | [] => (st, None)
  | file :: rest =>
      match load_file L st file with
      | Return st' => load_files_upto L st' rest
      | Raise e => (st, Some e)
      end
  end.

(** ** A page library that reads numbers in text cells *)

Module FakeCsv.

Definition is_digit (c : ascii) : bool :=
  let n := nat_of_ascii c in (48 <=? n) && (n <=? 57).

(** A cell a CSV reader would take for a whole number. *)
Definition numeric_cell (x : cell) : bool :=
  match x with
  | CInt _ => true
  | CText t => negb (length t =? 0) && forallb is_digit t
  | CNull => false
  end.

Definition number_column (df : DataFrame) (i : nat) : bool :=
  forallb (fun r => numeric_cell (nth i r CNull)) (rows df).

Definition libs : PageLibs :=
  {| is_number := number_column;
     pyplot_error := fun _ _ => None;
     to_excel := fun df => Return (Fake.render df) |}.

End FakeCsv.

(** * Properties *)

(** ** Python strings *)

Section StringFacts.

Lemma startswith_app (p t : str) : startswith p (p ++ t) = true.
Proof.
  induction p as [|a p IH]; simpl; [reflexivity|].
  now rewrite Ascii.eqb_refl, IH.
Qed.

Lemma startswith_prefix (p s : str) :
  startswith p s = true -> exists t, s = p ++ t.
Proof.
  revert s; induction p as [|a p IH]; intros s H.
  - now exists s.
  - destruct s as [|b s]; simpl in H; [discriminate|].
    apply andb_true_iff in H as [Hab Hps].
    apply Ascii.eqb_eq in Hab; subst b.
    destruct (IH _ Hps) as [t ->].
    now exists t.
Qed.

Lemma contains_startswith (sub s : str) :
  startswith sub s = true -> contains sub s = true.
Proof. intros H. destruct s; simpl; now rewrite H. Qed.

Lemma contains_occurrence (sub s : str) :
  contains sub s = true <-> exists a b, s = a ++ sub ++ b.
Proof.
  split.
  - induction s as [|c s IH]; simpl; intros H.
    + rewrite orb_false_r in H.
      destruct (startswith_prefix _ _ H) as [t Ht].
      now exists [], t.
    + apply orb_true_iff in H as [H|H].
      * destruct (startswith_prefix _ _ H) as [t Ht].
        now exists [], t.
      * destruct (IH H) as (a & b & ->).
        now exists (c :: a), b.
  - intros (a & b & ->).
    induction a as [|c a IH].
    + rewrite app_nil_l. apply contains_startswith, startswith_app.
    + simpl. rewrite IH. apply orb_true_r.
Qed.

Lemma contains_false_app_l (sub a b : str) :
  contains sub (a ++ b) = false -> contains sub a = false.
Proof.
  intros H.
  destruct (contains sub a) eqn:E; [|reflexivity].
  apply contains_occurrence in E as (x & y & ->).
  rewrite <- H. symmetry.
  apply contains_occurrence.
  exists x, (y ++ b). now rewrite <- !app_assoc.
Qed.

Lemma contains_false_app_r (sub a b : str) :
  contains sub (a ++ b) = false -> contains sub b = false.
Proof.
  intros H.
  destruct (contains sub b) eqn:E; [|reflexivity].
  apply contains_occurrence in E as (x & y & ->).
  rewrite <- H. symmetry.
  apply contains_occurrence.
  exists (a ++ x), y. now rewrite <- !app_assoc.
Qed.

Lemma contains_char (c : ascii) (s : str) :
  contains [c] s = false <-> ~ In c s.
Proof.
  induction s as [|x s IH]; simpl.
  - tauto.
  - rewrite orb_false_iff, andb_true_r, IH.
    split.
    + intros [Hx Hs] [->|Hin]; [|tauto].
      now rewrite Ascii.eqb_refl in Hx.
    + intros Hn. split; [|tauto].
      destruct (Ascii.eqb_spec c x); [subst; tauto | reflexivity].
Qed.

(** *** Scanning: [replace] and [split] one occurrence at a time *)

Lemma replace_from_skip (old new x t : str) :
  replace_from old new (length x) (x ++ t) = replace_from old new 0 t.
Proof.
  induction x as [|a x IH]; simpl; [|exact IH].
  destruct t; reflexivity.
Qed.

Lemma split_from_skip (sep x t : str) :
  split_from sep (length x) (x ++ t) = split_from sep 0 t.
Proof.
  induction x as [|a x IH]; simpl; [|exact IH].
  destruct t; reflexivity.
Qed.

Lemma replace_match (old new t : str) :
  old <> [] -> replace old new (old ++ t) = new ++ replace old new t.
Proof.
  destruct old as [|a old]; [congruence|]; intros _.
  unfold replace.
  change ((a :: old) ++ t) with (a :: (old ++ t)).
  cbn [replace_from].
  change (a :: old ++ t) with ((a :: old) ++ t).
  rewrite startswith_app.
  replace (length (a :: old) - 1) with (length old) by (simpl; lia).
  now rewrite replace_from_skip.
Qed.

Lemma replace_step (old new : str) (c : ascii) (s : str) :
  startswith old (c :: s) = false ->
  replace old new (c :: s) = c :: replace old new s.
Proof.
  destruct old as [|a old]; [discriminate|]; intros H.
  unfold replace. cbn [replace_from]. now rewrite H.
Qed.

Lemma replace_nil (old new : str) : old <> [] -> replace old new [] = [].
Proof. destruct old; [congruence | reflexivity]. Qed.

Lemma split_match (sep t : str) :
  sep <> [] -> split sep (sep ++ t) = [] :: split sep t.
Proof.
  destruct sep as [|a sep]; [congruence|]; intros _.
  unfold split.
  change ((a :: sep) ++ t) with (a :: (sep ++ t)).
  cbn [split_from].
  change (a :: sep ++ t) with ((a :: sep) ++ t).
  rewrite startswith_app.
  replace (length (a :: sep) - 1) with (length sep) by (simpl; lia).
  now rewrite split_from_skip.
Qed.

Lemma split_step (sep : str) (c : ascii) (s : str) :
  startswith sep (c :: s) = false ->
  split sep (c :: s) = push_char c (split sep s).
Proof.
  intros H. unfold split. cbn [split_from]. now rewrite H.
Qed.

(** Induction along the scan: either the separator is matched and passed
    over, or one character is kept. *)
Lemma scan_ind (sep : str) (P : str -> Prop) :
  sep <> [] ->
  P [] ->
  (forall t, P t -> P (sep ++ t)) ->
  (forall c s, startswith sep (c :: s) = false -> P s -> P (c :: s)) ->
  forall s, P s.
Proof.
  intros Hsep Hnil Hmatch Hstep s.
  remember (length s) as n eqn:Hn.
  revert s Hn.
  induction n as [n IH] using lt_wf_ind; intros s Hn.
  destruct s as [|c s]; [exact Hnil|].
  destruct (startswith sep (c :: s)) eqn:E.
  - destruct (startswith_prefix _ _ E) as [t Ht].
    rewrite Ht. apply Hmatch.
    apply (IH (length t)); [|reflexivity].
    subst n. rewrite Ht, length_app.
    destruct sep; [congruence | simpl; lia].
  - apply Hstep; [exact E|].
    apply (IH (length s)); [subst n; simpl; lia | reflexivity].
Qed.

(** *** [split] *)

Lemma split_nonempty (sep s : str) : split sep s <> [].
Proof.
  unfold split. generalize 0.
  induction s as [|c s IH]; intros k; simpl; [discriminate|].
  destruct k; [|apply IH].
  destruct (startswith sep (c :: s)); [discriminate|].
  specialize (IH 0). destruct (split_from sep 0 s); [congruence | discriminate].
Qed.

Lemma join_push_char (sep : str) (c : ascii) (ps : list str) :
  ps <> [] -> join sep (push_char c ps) = c :: join sep ps.
Proof.
  destruct ps as [|p [|q ps]]; [congruence | reflexivity | reflexivity].
Qed.

(** [sep.join(s.split(sep)) == s] *)
Lemma join_split (sep s : str) : sep <> [] -> join sep (split sep s) = s.
Proof.
  intros Hsep. revert s.
  apply (scan_ind sep); [exact Hsep | reflexivity | |].
  - intros t IH. rewrite split_match by exact Hsep.
    pose proof (split_nonempty sep t) as Hne.
    destruct (split sep t) as [|p ps] eqn:E; [congruence|].
    change (join sep ([] :: p :: ps)) with (sep ++ join sep (p :: ps)).
    now rewrite IH.
  - intros c s Hno IH. rewrite split_step by exact Hno.
    rewrite join_push_char by apply split_nonempty.
    now rewrite IH.
Qed.

(** The head piece is a prefix of the text. *)
Lemma join_head_prefix (sep p : str) (ps : list str) :
  exists t, join sep (p :: ps) = p ++ t.
Proof.
  destruct ps as [|q ps].
  - exists []. simpl. now rewrite app_nil_r.
  - now exists (sep ++ join sep (q :: ps)).
Qed.

Lemma startswith_app_l (p s t : str) :
  startswith p s = true -> startswith p (s ++ t) = true.
Proof.
  intros H. destruct (startswith_prefix _ _ H) as [u ->].
  rewrite <- app_assoc. apply startswith_app.
Qed.

(** No piece of a split contains the separator. *)
Lemma split_pieces_free (sep s : str) :
  sep <> [] -> Forall (fun p => contains sep p = false) (split sep s).
Proof.
  intros Hsep. revert s.
  apply (scan_ind sep); [exact Hsep | | |].
  - constructor; [|constructor].
    destruct sep; [congruence | reflexivity].
  - intros t IH. rewrite split_match by exact Hsep.
    constructor; [|exact IH].
    destruct sep; [congruence | reflexivity].
  - intros c s Hno IH. rewrite split_step by exact Hno.
    pose proof (join_split sep s Hsep) as Hjoin.
    destruct (split sep s) as [|p ps] eqn:E.
    + now apply split_nonempty in E.
    + apply Forall_cons_iff in IH as [Hp Hps].
      constructor; [|exact Hps].
      cbn [contains]. rewrite Hp, orb_false_r.
      destruct (startswith sep (c :: p)) eqn:Hpre; [|reflexivity].
      destruct (join_head_prefix sep p ps) as [t Ht].
      rewrite Ht in Hjoin. rewrite <- Hjoin in Hno.
      change (c :: p ++ t) with ((c :: p) ++ t) in Hno.
      now rewrite (startswith_app_l _ _ t Hpre) in Hno.
Qed.

(** [s.replace(old, new) == new.join(s.split(old))] *)
Lemma replace_join_split (old new s : str) :
  old <> [] -> replace old new s = join new (split old s).
Proof.
  intros Hold. revert s.
  apply (scan_ind old); [exact Hold | | |].
  - now rewrite replace_nil.
  - intros t IH. rewrite replace_match, split_match by exact Hold.
    pose proof (split_nonempty old t) as Hne.
    destruct (split old t) as [|p ps] eqn:E; [congruence|].
    change (join new ([] :: p :: ps)) with (new ++ join new (p :: ps)).
    now rewrite IH.
  - intros c s Hno IH. rewrite replace_step, split_step by exact Hno.
    rewrite join_push_char by apply split_nonempty.
    now rewrite IH.
Qed.

Lemma join_nil_concat (ps : list str) : join [] ps = concat ps.
Proof.
  induction ps as [|p [|q ps] IH]; [reflexivity | |].
  - simpl. now rewrite app_nil_r.
  - change (join [] (p :: q :: ps)) with (p ++ [] ++ join [] (q :: ps)).
    now rewrite IH.
Qed.

(** Replacing one character by one character is a map. *)
Lemma replace_char (a b : ascii) (s : str) :
  replace [a] [b] s = map (fun c => if Ascii.eqb a c then b else c) s.
Proof.
  induction s as [|c s IH]; [reflexivity|].
  destruct (Ascii.eqb a c) eqn:E.
  - apply Ascii.eqb_eq in E; subst c.
    change (a :: s) with ([a] ++ s).
    rewrite replace_match by discriminate.
    rewrite IH. cbn [map app]. now rewrite Ascii.eqb_refl.
  - rewrite replace_step by (simpl; now rewrite E).
    rewrite IH. cbn [map]. now rewrite E.
Qed.

(** *** [strip] keeps a contiguous part of the text *)

Lemma lstrip_suffix (s : str) : exists a, s = a ++ lstrip s.
Proof.
  induction s as [|c s [a IH]]; [now exists []|].
  simpl. destruct (isspace c).
  - exists (c :: a). simpl. now f_equal.
  - now exists [].
Qed.

Lemma rstrip_prefix (s : str) : exists b, s = rstrip s ++ b.
Proof.
  unfold rstrip.
  destruct (lstrip_suffix (rev s)) as [a Ha].
  exists (rev a).
  rewrite <- rev_app_distr, <- Ha. now rewrite rev_involutive.
Qed.

Lemma strip_part (s : str) : exists a b, s = a ++ strip s ++ b.
Proof.
  unfold strip.
  destruct (lstrip_suffix s) as [a Ha].
  destruct (rstrip_prefix (lstrip s)) as [b Hb].
  exists a, b. now rewrite <- Hb.
Qed.

Lemma contains_strip (sub s : str) :
  contains sub s = false -> contains sub (strip s) = false.
Proof.
  intros H. destruct (strip_part s) as (a & b & E).
  rewrite E in H.
  now apply contains_false_app_r, contains_false_app_l in H.
Qed.

(** *** Code fences *)

Lemma startswith_fence (s : str) :
  startswith fence s = (3 <=? leading_ticks s).
Proof.
  destruct s as [|a [|b [|c s]]]; cbn -[Ascii.eqb Nat.leb]; unfold backtick;
    repeat match goal with
           | |- context [Ascii.eqb ?y ?x] =>
               is_var x; destruct (Ascii.eqb y x)
           end; reflexivity.
Qed.

(** After [replace("```", "")] no fence is left. *)
Lemma fence_removed (s : str) :
  contains fence (replace fence [] s) = false
  /\ leading_ticks (replace fence [] s) <= leading_ticks s.
Proof.
  revert s. apply (scan_ind fence); [discriminate | | |].
  - split; [reflexivity | apply le_n].
  - intros t [IHc IHt]. rewrite replace_match by discriminate.
    split; [exact IHc|].
    cbn [app]. etransitivity; [exact IHt|].
    cbn. lia.
  - intros c s Hno [IHc IHt]. rewrite replace_step by exact Hno.
    assert (Hle : leading_ticks (c :: replace fence [] s)
                  <= leading_ticks (c :: s)).
    { cbn [leading_ticks]. destruct (Ascii.eqb backtick c); lia. }
    split; [|exact Hle].
    cbn [contains]. rewrite IHc, orb_false_r.
    rewrite startswith_fence in Hno |- *.
    apply Nat.leb_gt in Hno. apply Nat.leb_gt. lia.
Qed.

Lemma contains_false_snoc (sub s : str) (c : ascii) :
  contains sub s = false -> ~ In c sub -> sub <> [] ->
  contains sub (s ++ [c]) = false.
Proof.
  intros Hs Hc Hsub.
  destruct (contains sub (s ++ [c])) eqn:E; [|reflexivity].
  apply contains_occurrence in E as (a & b & E).
  destruct (@exists_last _ b) as (b' & x & ->).
  - intros ->. rewrite app_nil_r in E.
    destruct (exists_last Hsub) as (sub' & y & ->).
    rewrite app_assoc in E. apply app_inj_tail in E as [_ <-].
    exfalso. apply Hc, in_or_app. right. now left.
  - rewrite !app_assoc in E. apply app_inj_tail in E as [E _].
    rewrite <- Hs. symmetry. apply contains_occurrence.
    exists a, b'. now rewrite E, app_assoc.
Qed.

End StringFacts.

(** ** [ask_ai]: one statement *)

Section AskAi.

Lemma first_statement_shape (raw : str) :
  exists body rest,
    cleaned raw = body ++ rest
    /\ (rest = [] \/ exists r, rest = semicolon :: r)
    /\ ~ In semicolon body
    /\ first_statement raw = Return (body ++ [semicolon]).
Proof.
  unfold first_statement. fold (cleaned raw).
  assert (Hsep : lit ";" <> []) by discriminate.
  pose proof (join_split _ (cleaned raw) Hsep) as Hjoin.
  pose proof (split_pieces_free _ (cleaned raw) Hsep) as Hfree.
  destruct (split (lit ";") (cleaned raw)) as [|p ps] eqn:E.
  - now apply split_nonempty in E.
  - apply Forall_cons_iff in Hfree as [Hp _].
    apply (contains_char semicolon) in Hp.
    destruct ps as [|q ps].
    + exists p, []. rewrite app_nil_r. simpl in Hjoin. now auto.
    + exists p, (semicolon :: join (lit ";") (q :: ps)).
      repeat split; [now rewrite <- Hjoin | right; eauto | exact Hp].
Qed.

Lemma cleaned_fence_free (raw : str) : contains fence (cleaned raw) = false.
Proof. apply contains_strip, fence_removed. Qed.

Lemma endswith_snoc (s : str) (c : ascii) : endswith [c] (s ++ [c]) = true.
Proof.
  unfold endswith. rewrite rev_app_distr. simpl.
  now rewrite Ascii.eqb_refl.
Qed.

End AskAi.

(** C1.  Whatever text the model answers with, [ask_ai] returns a statement
    that ends in [";"], holds exactly one [";"] and no code fence: it is
    the part of the answer (fences removed, stripped) before its first
    [";"], with [";"] put back.  For the answer
    "```sql SELECT 1; SELECT 2;```" the statement is "SELECT 1;". *)
Theorem ask_ai_one_statement (L : Libs) (schema question raw : str) (w : World)
  (Hraw : create L (calls w) (request (ask_prompt schema question))
          = Return raw) :
  (exists stmt,
      ask_ai L schema question w
      = (Return stmt, {| shown := shown w; calls := S (calls w) |})
      /\ endswith (lit ";") stmt = true
      /\ count_occ ascii_dec stmt semicolon = 1
      /\ contains fence stmt = false
      /\ exists body rest,
           cleaned (strip raw) = body ++ rest
           /\ (rest = [] \/ exists r, rest = semicolon :: r)
           /\ stmt = body ++ lit ";")
  /\ (forall s q w',
         fst (ask_ai (Fake.libs (Return Sample.fenced_answer)) s q w')
         = Return (lit "SELECT 1;")).
Proof.
  split; [|reflexivity].
  destruct (first_statement_shape (strip raw))
    as (body & rest & Hclean & Hrest & Hno & Hfirst).
  exists (body ++ [semicolon]).
  split.
  { unfold ask_ai, bind, call_ai. now rewrite Hraw, Hfirst. }
  split; [apply endswith_snoc|].
  split.
  { rewrite count_occ_app.
    rewrite (proj1 (count_occ_not_In ascii_dec body semicolon) Hno).
    reflexivity. }
  split.
  { apply contains_false_snoc; [| |discriminate].
    - pose proof (cleaned_fence_free (strip raw)) as Hf.
      rewrite Hclean in Hf. now apply contains_false_app_l in Hf.
    - cbv. intuition discriminate. }
  now exists body, rest.
Qed.

Lemma ask_ai_one_statement_witness :
  exists stmt,
    ask_ai (Fake.libs (Return Sample.fenced_answer))
      (lit "sales(Date, Product)") (lit "total revenue by product")
      Sample.start
    = (Return stmt, {| shown := []; calls := 1 |})
    /\ endswith (lit ";") stmt = true
    /\ count_occ ascii_dec stmt semicolon = 1.
Proof.
  destruct (ask_ai_one_statement (Fake.libs (Return Sample.fenced_answer))
              (lit "sales(Date, Product)") (lit "total revenue by product")
              Sample.fenced_answer Sample.start eq_refl)
    as ((stmt & H1 & H2 & H3 & _) & _).
  exists stmt. auto.
Defined.

(** ** [run_sql]: failures become an empty result and a message *)

(** C2.  When running the statement raises an [Exception], [run_sql] does
    not raise: it shows one error whose text, "SQL Error: " followed by the
    exception's text, is not empty, and returns the empty frame, which has
    no rows and no columns. *)
Theorem run_sql_failure (L : Libs) (c : Conn) (query : str) (e : exn)
  (w : World)
  (Hfail : read_sql_query L query c = Raise e)
  (Hclass : is_exception e = true) :
  exists text,
    run_sql L c query w
    = (Return empty_frame,
       {| shown := shown w ++ [StError text]; calls := calls w |})
    /\ text = lit "SQL Error: " ++ message e
    /\ 0 < length text
    /\ rows empty_frame = []
    /\ columns empty_frame = [].
Proof.
  exists (lit "SQL Error: " ++ message e).
  unfold run_sql. rewrite Hfail, Hclass.
  repeat split. rewrite length_app. simpl. lia.
Qed.

Lemma run_sql_failure_witness :
  exists text,
    run_sql (Fake.libs (Return Sample.fenced_answer)) []
      (lit "SELEC * FORM sales;") Sample.start
    = (Return empty_frame, {| shown := [StError text]; calls := 0 |})
    /\ text = lit "SQL Error: syntax error".
Proof.
  destruct (run_sql_failure (Fake.libs (Return Sample.fenced_answer)) []
              (lit "SELEC * FORM sales;") (Fake.error "syntax error")
              Sample.start eq_refl eq_refl)
    as (text & Hrun & Htext & _).
  exists text. split; [exact Hrun | exact Htext].
Defined.

(** A statement that runs is returned as it is, with nothing shown. *)
Lemma run_sql_success (L : Libs) (c : Conn) (query : str) (df : DataFrame)
  (w : World) :
  read_sql_query L query c = Return df ->
  run_sql L c query w = (Return df, w).
Proof. intros H. unfold run_sql. now rewrite H. Qed.

(** ** [explain]: no request for an empty result *)

Lemma df_empty_no_rows (df : DataFrame) : rows df = [] -> df_empty df = true.
Proof. intros H. unfold df_empty. rewrite H. apply orb_true_r. Qed.

Lemma call_ai_counts (L : Libs) (prompt : str) (w : World) :
  calls (snd (call_ai L prompt w)) = S (calls w).
Proof.
  unfold call_ai. now destruct (create L (calls w) (request prompt)).
Qed.

(** C3.  For a result without rows [explain] returns "No data was returned
    for this question." and sends no request to the model; whenever
    [explain] does send a request, the result had rows. *)
Theorem explain_empty (L : Libs) (df : DataFrame) (w : World)
  (Hempty : rows df = []) :
  explain L df w = (Return (lit "No data was returned for this question."), w)
  /\ calls (snd (explain L df w)) = calls w
  /\ (forall df' w', calls (snd (explain L df' w')) <> calls w' ->
                     rows df' <> []).
Proof.
  assert (Hrun : explain L df w
                 = (Return (lit "No data was returned for this question."), w)).
  { unfold explain. now rewrite (df_empty_no_rows df Hempty). }
  split; [exact Hrun|]. split; [now rewrite Hrun|].
  intros df' w' Hcalls Hrows. apply Hcalls.
  unfold explain. now rewrite (df_empty_no_rows df' Hrows).
Qed.

Lemma explain_empty_witness :
  explain (Fake.libs (Return Sample.fenced_answer)) empty_frame Sample.start
  = (Return (lit "No data was returned for this question."), Sample.start).
Proof.
  exact (proj1 (explain_empty (Fake.libs (Return Sample.fenced_answer))
                  empty_frame Sample.start eq_refl)).
Defined.

(** On a result with rows and columns exactly one request is sent. *)
Lemma explain_nonempty_calls (L : Libs) (df : DataFrame) (w : World) :
  df_empty df = false -> calls (snd (explain L df w)) = S (calls w).
Proof. intros H. unfold explain. rewrite H. apply call_ai_counts. Qed.

(** ** Failures of the model *)

(** C8.  When the request to the model raises, [ask_ai] raises that same
    exception and returns no statement, and [explain] on a result that is
    not empty raises that same exception and returns no summary. *)
Theorem model_failure_propagates (L : Libs) (schema question : str)
  (df : DataFrame) (w : World) (e e' : exn)
  (Hask : create L (calls w) (request (ask_prompt schema question)) = Raise e)
  (Hdf : df_empty df = false)
  (Hexplain : create L (calls w)
                (request (explain_prompt (to_string L (head 10 df))))
              = Raise e') :
  fst (ask_ai L schema question w) = Raise e
  /\ fst (explain L df w) = Raise e'
  /\ (forall stmt, fst (ask_ai L schema question w) <> Return stmt)
  /\ (forall summary, fst (explain L df w) <> Return summary).
Proof.
  assert (Ha : fst (ask_ai L schema question w) = Raise e).
  { unfold ask_ai, bind, call_ai. now rewrite Hask. }
  assert (Hx : fst (explain L df w) = Raise e').
  { unfold explain, call_ai. now rewrite Hdf, Hexplain. }
  repeat split; [exact Ha | exact Hx | |]; intros x Hx'; congruence.
Qed.

Lemma model_failure_propagates_witness :
  fst (ask_ai (Fake.libs (Raise Sample.timed_out)) (lit "sales(Date)")
         (lit "how many rows") Sample.start)
  = Raise Sample.timed_out
  /\ fst (explain (Fake.libs (Raise Sample.timed_out))
            {| columns := [lit "n"]; rows := [[CInt 1]] |} Sample.start)
     = Raise Sample.timed_out.
Proof.
  destruct (model_failure_propagates (Fake.libs (Raise Sample.timed_out))
              (lit "sales(Date)") (lit "how many rows")
              {| columns := [lit "n"]; rows := [[CInt 1]] |} Sample.start
              Sample.timed_out Sample.timed_out eq_refl eq_refl eq_refl)
    as (Ha & Hx & _).
  split; [exact Ha | exact Hx].
Defined.

(** ** The derived table name *)

Section TableName.

Lemma table_name_chars (file_name : str) :
  table_name file_name
  = map underscore_space (lower (concat (split (lit ".csv") file_name))).
Proof.
  unfold table_name.
  rewrite (replace_char " "%char "_"%char).
  rewrite replace_join_split by discriminate.
  change (lit "") with (@nil ascii).
  now rewrite join_nil_concat.
Qed.

Lemma normalize_column_chars (c : str) :
  normalize_column c = map underscore_space (strip c).
Proof. unfold normalize_column. apply (replace_char " "%char "_"%char). Qed.

Lemma underscore_space_no_space (c : ascii) : underscore_space c <> " "%char.
Proof.
  unfold underscore_space.
  destruct (Ascii.eqb_spec " "%char c); [discriminate | congruence].
Qed.

Lemma lower_char_not_upper (c : ascii) : isupper (lower_char c) = false.
Proof.
  destruct c as [[] [] [] [] [] [] [] []]; reflexivity.
Qed.

Lemma underscore_space_not_upper (c : ascii) :
  isupper c = false -> isupper (underscore_space c) = false.
Proof.
  unfold underscore_space. now destruct (Ascii.eqb " "%char c).
Qed.

(** The table name holds no space and no capital letter. *)
Lemma table_name_lower_no_space (file_name : str) :
  Forall (fun c => c <> " "%char /\ isupper c = false) (table_name file_name).
Proof.
  rewrite table_name_chars. unfold lower. rewrite map_map.
  apply Forall_forall. intros c Hc.
  apply in_map_iff in Hc as (x & <- & _).
  split; [apply underscore_space_no_space|].
  apply underscore_space_not_upper, lower_char_not_upper.
Qed.

(** A normalized column name holds no space. *)
Lemma normalize_column_no_space (c : str) : ~ In " "%char (normalize_column c).
Proof.
  rewrite normalize_column_chars. intros H.
  apply in_map_iff in H as (x & Hx & _).
  now apply underscore_space_no_space in Hx.
Qed.

(** *** The pieces between occurrences of [".csv"] are determined *)

Lemma csv_borderless : borderless (lit ".csv").
Proof.
  intros x y z Hx Hy.
  destruct x as [|a [|b [|c [|d [|e x]]]]]; [now right| | | | |];
    cbv in Hx; inversion Hx; subst; clear Hx;
    try (left; reflexivity);
    cbv in Hy; discriminate.
Qed.

Lemma sep_free_no_occurrence (sep a b : str) :
  sep_free sep (a ++ sep ++ b) -> False.
Proof.
  unfold sep_free. intros H.
  assert (contains sep (a ++ sep ++ b) = true)
    by (apply contains_occurrence; eauto).
  congruence.
Qed.

Lemma no_overhang (sep q x r r' : str) :
  sep <> [] -> borderless sep -> sep_free sep (q ++ x) ->
  sep ++ r' = x ++ sep ++ r -> x = [].
Proof.
  intros Hsep Hborder Hfree E.
  apply app_eq_app in E as [l [[E1 E2]|[E1 E2]]].
  - apply app_eq_app in E2 as [m [[E3 E4]|[E3 E4]]].
    + destruct (Hborder x l m E1 E3) as [-> | ->]; [|reflexivity].
      rewrite app_nil_r in E1. subst x.
      exfalso. apply (sep_free_no_occurrence sep q []).
      now rewrite app_nil_r.
    + subst l. apply (f_equal (@length ascii)) in E1.
      rewrite !length_app in E1.
      destruct x; [reflexivity | simpl in E1; lia].
  - subst x. exfalso. now apply (sep_free_no_occurrence sep q l).
Qed.

Lemma first_piece_unique (sep p q t1 t2 : str) :
  sep <> [] -> borderless sep ->
  sep_free sep p -> sep_free sep q ->
  goes_on sep t1 -> goes_on sep t2 ->
  p ++ t1 = q ++ t2 -> p = q /\ t1 = t2.
Proof.
  intros Hsep Hborder Hp Hq.
  assert (Hhalf : forall p q t1 t2,
             sep_free sep p -> goes_on sep t1 -> goes_on sep t2 ->
             forall x, p = q ++ x -> t2 = x ++ t1 -> x = []).
  { clear p q t1 t2 Hp Hq. intros p q t1 t2 Hp H1 H2 x -> E.
    destruct H2 as [-> | [r' ->]].
    - symmetry in E. now apply app_eq_nil in E as [E _].
    - destruct H1 as [-> | [r ->]].
      + rewrite app_nil_r in E. subst x.
        exfalso. now apply (sep_free_no_occurrence sep q r').
      + now apply (no_overhang sep q x r r'). }
  intros H1 H2 E.
  apply app_eq_app in E as [x [[E1 E2]|[E1 E2]]].
  - assert (x = []) by (apply (Hhalf p q t1 t2); assumption).
    subst x. rewrite app_nil_r in E1. now split.
  - assert (x = []) by (apply (Hhalf q p t2 t1); assumption).
    subst x. rewrite app_nil_r in E1. now split.
Qed.

Lemma join_cons (sep p : str) (ps : list str) :
  exists t, join sep (p :: ps) = p ++ t /\ goes_on sep t
            /\ (ps = [] -> t = [])
            /\ (forall q qs, ps = q :: qs -> t = sep ++ join sep (q :: qs)).
Proof.
  destruct ps as [|q qs].
  - exists []. simpl. rewrite app_nil_r.
    repeat split; [now left | discriminate].
  - exists (sep ++ join sep (q :: qs)).
    repeat split; [right; eauto | discriminate |].
    now intros q' qs' [= <- <-].
Qed.

(** A text has one decomposition into separator-free pieces only. *)
Lemma pieces_unique (sep : str) (ps qs : list str) :
  sep <> [] -> borderless sep ->
  ps <> [] -> qs <> [] ->
  Forall (sep_free sep) ps -> Forall (sep_free sep) qs ->
  join sep ps = join sep qs -> ps = qs.
Proof.
  intros Hsep Hborder.
  revert qs. induction ps as [|p ps IH]; intros qs Hps Hqs Fp Fq E;
    [congruence|].
  destruct qs as [|q qs]; [congruence|].
  apply Forall_cons_iff in Fp as [Fp Fps].
  apply Forall_cons_iff in Fq as [Fq Fqs].
  destruct (join_cons sep p ps) as (t1 & E1 & G1 & N1 & C1).
  destruct (join_cons sep q qs) as (t2 & E2 & G2 & N2 & C2).
  rewrite E1, E2 in E.
  destruct (first_piece_unique sep p q t1 t2 Hsep Hborder Fp Fq G1 G2 E)
    as [-> Et].
  f_equal.
  destruct ps as [|p' ps], qs as [|q' qs]; [reflexivity | | |].
  - rewrite (N1 eq_refl), (C2 _ _ eq_refl) in Et.
    destruct sep; [congruence | discriminate].
  - rewrite (N2 eq_refl), (C1 _ _ eq_refl) in Et.
    destruct sep; [congruence | discriminate].
  - rewrite (C1 _ _ eq_refl), (C2 _ _ eq_refl) in Et.
    apply app_inv_head in Et.
    apply IH; [discriminate | discriminate | assumption | assumption | exact Et].
Qed.

Lemma split_is_the_decomposition (sep s : str) (qs : list str) :
  sep <> [] -> borderless sep ->
  qs <> [] -> Forall (sep_free sep) qs -> s = join sep qs ->
  qs = split sep s.
Proof.
  intros Hsep Hborder Hqs Fq E.
  apply (pieces_unique sep); try assumption.
  - apply split_nonempty.
  - apply split_pieces_free, Hsep.
  - now rewrite join_split.
Qed.

Lemma without_extension_stem (stem : str) :
  without_extension (stem ++ lit ".csv") = stem.
Proof.
  unfold without_extension, endswith.
  rewrite rev_app_distr, startswith_app.
  rewrite length_app. change (length (lit ".csv")) with 4.
  replace (length stem + 4 - 4) with (length stem + 0) by lia.
  rewrite firstn_app_2. simpl. apply app_nil_r.
Qed.

(** When [".csv"] occurs only as the extension, the derived name is the
    specification's. *)
Lemma table_name_plain_extension (stem : str) :
  sep_free (lit ".csv") stem ->
  table_name (stem ++ lit ".csv") = spec_table_name (stem ++ lit ".csv").
Proof.
  intros Hstem.
  rewrite table_name_chars. unfold spec_table_name.
  rewrite without_extension_stem, (replace_char " "%char "_"%char).
  rewrite <- (split_is_the_decomposition (lit ".csv") (stem ++ lit ".csv")
                [stem; []]).
  - cbn [concat app]. now rewrite app_nil_r.
  - discriminate.
  - exact csv_borderless.
  - discriminate.
  - repeat constructor. exact Hstem.
  - cbn [join]. now rewrite app_nil_r.
Qed.

End TableName.

(** C10.  Every file name splits in one way only into pieces without
    [".csv"] joined by [".csv"]; the table name is those pieces put
    together, so with every [".csv"] left out, then lower-cased, then with
    each space turned into an underscore.  "a.csv b.csv" gives "a_b". *)
Theorem table_name_drops_every_csv (file_name : str) :
  (exists pieces,
      pieces <> []
      /\ file_name = join (lit ".csv") pieces
      /\ Forall (sep_free (lit ".csv")) pieces
      /\ (forall qs, qs <> [] -> Forall (sep_free (lit ".csv")) qs ->
                     file_name = join (lit ".csv") qs -> qs = pieces)
      /\ table_name file_name
         = map underscore_space (lower (concat pieces)))
  /\ table_name (lit "a.csv b.csv") = lit "a_b".
Proof.
  split; [|reflexivity].
  exists (split (lit ".csv") file_name).
  split; [apply split_nonempty|].
  split; [symmetry; apply join_split; discriminate|].
  split; [apply split_pieces_free; discriminate|].
  split; [|apply table_name_chars].
  intros qs Hqs Fq E.
  apply split_is_the_decomposition;
    [discriminate | exact csv_borderless | assumption..].
Qed.

(** C5, at a file name that holds [".csv"] before its extension: the
    script names the table "report.final", while the file name without its
    extension, lower-cased, is "report.csv.final". *)
Theorem table_name_inner_csv :
  table_name (lit "report.csv.final.csv") = lit "report.final"
  /\ spec_table_name (lit "report.csv.final.csv") = lit "report.csv.final"
  /\ table_name (lit "report.csv.final.csv")
     <> spec_table_name (lit "report.csv.final.csv").
Proof.
  split; [reflexivity|]. split; [reflexivity|]. discriminate.
Qed.

(** ** The tabular store *)

Section StoreFacts.

Lemma str_eqb_eq (a b : str) : str_eqb a b = true <-> a = b.
Proof.
  unfold str_eqb. destruct (list_eq_dec ascii_dec a b); split; congruence.
Qed.

Lemma str_eqb_refl (a : str) : str_eqb a a = true.
Proof. now apply str_eqb_eq. Qed.

Lemma lookup_dropped (table : str) (c : Conn) :
  lookup_table table (drop_table table c) = None.
Proof.
  induction c as [|[t df] c IH]; [reflexivity|].
  simpl. destruct (str_eqb t table) eqn:E; simpl; [exact IH|].
  now rewrite E.
Qed.

Lemma lookup_app (table : str) (c c' : Conn) :
  lookup_table table (c ++ c')
  = match lookup_table table c with
    | Some df => Some df
    | None => lookup_table table c'
    end.
Proof.
  induction c as [|[t df] c IH]; [reflexivity|].
  simpl. now destruct (str_eqb t table).
Qed.

Lemma lookup_replaced (table : str) (df : DataFrame) (c : Conn) :
  lookup_table table (create_table table df (drop_table table c)) = Some df.
Proof.
  unfold create_table. rewrite lookup_app, lookup_dropped.
  simpl. now rewrite str_eqb_refl.
Qed.

Lemma lookup_other (table other : str) (df : DataFrame) (c : Conn) :
  other <> table ->
  lookup_table other (create_table table df (drop_table table c))
  = lookup_table other c.
Proof.
  intros Hne. unfold create_table. rewrite lookup_app.
  assert (Hdrop : lookup_table other (drop_table table c)
                  = lookup_table other c).
  { induction c as [|[t d] c IH]; [reflexivity|].
    simpl. destruct (str_eqb t table) eqn:E; simpl.
    - apply str_eqb_eq in E. subst t.
      destruct (str_eqb table other) eqn:E'; [|exact IH].
      apply str_eqb_eq in E'. congruence.
    - now rewrite IH. }
  rewrite Hdrop. destruct (lookup_table other c); [reflexivity|].
  simpl. destruct (str_eqb table other) eqn:E; [|reflexivity].
  apply str_eqb_eq in E. congruence.
Qed.

(** After a replacing write the store holds one relation of that name. *)
Lemma only_the_new_relation (table : str) (df : DataFrame) (c : Conn) :
  filter (fun r => str_eqb (fst r) table)
    (create_table table df (drop_table table c))
  = [(table, df)].
Proof.
  unfold create_table, drop_table. rewrite filter_app.
  simpl. rewrite str_eqb_refl.
  replace (filter (fun r => str_eqb (fst r) table)
             (filter (fun r => negb (str_eqb (fst r) table)) c))
    with (@nil (str * DataFrame)); [reflexivity|].
  induction c as [|[t d] c IH]; [reflexivity|].
  simpl. destruct (str_eqb t table) eqn:E; simpl; [exact IH|].
  now rewrite E.
Qed.

Lemma drop_table_names (table : str) (c : Conn) :
  table_names (drop_table table c)
  = filter (fun t => negb (str_eqb t table)) (table_names c).
Proof.
  induction c as [|[t d] c IH]; [reflexivity|].
  simpl. destruct (str_eqb t table); simpl; now rewrite IH.
Qed.

Lemma drop_table_absent (table : str) (c : Conn) :
  ~ In table (table_names c) -> drop_table table c = c.
Proof.
  induction c as [|[t d] c IH]; [reflexivity|].
  simpl. intros Hn.
  destruct (str_eqb t table) eqn:E.
  - apply str_eqb_eq in E. tauto.
  - simpl. rewrite IH; tauto.
Qed.

(** Relation names stay unique under a replacing write. *)
Lemma replace_keeps_names_unique (table : str) (df : DataFrame) (c : Conn) :
  NoDup (table_names c) ->
  NoDup (table_names (create_table table df (drop_table table c))).
Proof.
  intros Hnd. unfold create_table, table_names.
  rewrite map_app. fold (table_names (drop_table table c)).
  rewrite drop_table_names. simpl.
  apply NoDup_app.
  - now apply NoDup_filter.
  - repeat constructor. intros [].
  - intros t Hin [<-|[]].
    apply filter_In in Hin as [_ Hin].
    now rewrite str_eqb_refl in Hin.
Qed.

End StoreFacts.

(** ** The upload loop *)

Section UploadLoop.

Variable L : Libs.

Lemma load_file_ok (st : Store) (file : UploadedFile) (df : DataFrame) :
  read_csv L file = Return df ->
  to_sql_error L (derived file) (stored_frame df) = None ->
  load_file L st file = Return (after_load st file df).
Proof.
  intros Hread Hsql. unfold load_file, to_sql, bind_outcome.
  rewrite Hread. fold (stored_frame df). fold (derived file).
  now rewrite Hsql.
Qed.

Lemma load_file_inv (st st' : Store) (file : UploadedFile) :
  load_file L st file = Return st' ->
  exists df, read_csv L file = Return df
             /\ to_sql_error L (derived file) (stored_frame df) = None
             /\ st' = after_load st file df.
Proof.
  unfold load_file, to_sql, bind_outcome.
  destruct (read_csv L file) as [df|e]; [|discriminate].
  fold (stored_frame df). fold (derived file).
  destruct (to_sql_error L (derived file) (stored_frame df)) eqn:E;
    [discriminate|].
  intros [= <-]. now exists df.
Qed.

Lemma load_file_read_fails (st : Store) (file : UploadedFile) (e : exn) :
  read_csv L file = Raise e -> load_file L st file = Raise e.
Proof. intros H. unfold load_file, bind_outcome. now rewrite H. Qed.

Lemma load_files_app (st : Store) (xs ys : list UploadedFile) :
  load_files L st (xs ++ ys)
  = bind_outcome (load_files L st xs) (fun st' => load_files L st' ys).
Proof.
  revert st. induction xs as [|x xs IH]; intros st; [reflexivity|].
  simpl. destruct (load_file L st x) as [st'|e]; simpl; [apply IH|reflexivity].
Qed.

(** Relation names are unique after any batch that loads. *)
Lemma load_files_names_unique (files : list UploadedFile) (st st' : Store) :
  NoDup (table_names (conn st)) ->
  load_files L st files = Return st' ->
  NoDup (table_names (conn st')).
Proof.
  revert st. induction files as [|f files IH]; intros st Hnd H.
  - now injection H as <-.
  - simpl in H. destruct (load_file L st f) as [st1|e] eqn:E;
      [|discriminate].
    apply (IH st1); [|exact H].
    apply load_file_inv in E as (df & _ & _ & ->).
    now apply replace_keeps_names_unique.
Qed.

Lemma describe_app (c c' : Conn) : describe (c ++ c') = describe c ++ describe c'.
Proof. unfold describe. now rewrite map_app, concat_app. Qed.

(** When the files of a batch derive different names, none of them in the
    store yet, the schema text is the description of the store, one line
    per relation, in upload order. *)
Lemma schema_describes_store (files : list UploadedFile) (st st' : Store) :
  schema st = describe (conn st) ->
  NoDup (map derived files) ->
  (forall f, In f files -> ~ In (derived f) (table_names (conn st))) ->
  load_files L st files = Return st' ->
  schema st' = describe (conn st')
  /\ table_names (conn st') = table_names (conn st) ++ map derived files.
Proof.
  revert st. induction files as [|f files IH]; intros st Hsch Hnd Hnew H.
  - injection H as <-. now rewrite app_nil_r.
  - simpl in H. destruct (load_file L st f) as [st1|e] eqn:E;
      [|discriminate].
    apply load_file_inv in E as (df & _ & _ & ->).
    assert (Hconn : conn (after_load st f df)
                    = conn st ++ [(derived f, stored_frame df)]).
    { simpl. unfold create_table.
      rewrite drop_table_absent; [reflexivity|].
      apply Hnew. now left. }
    inversion Hnd as [|? ? Hf Hnd']; subst.
    destruct (IH (after_load st f df)) as [Hs Hn]; [| exact Hnd' | | exact H |].
    + rewrite Hconn, describe_app. simpl. rewrite Hsch.
      unfold describe. simpl. now rewrite app_nil_r.
    + intros g Hg. rewrite Hconn. unfold table_names. rewrite map_app.
      intros Hin. apply in_app_or in Hin as [Hin|[Hin|[]]].
      * apply (Hnew g); [now right | exact Hin].
      * simpl in Hin. apply Hf. rewrite Hin. now apply in_map.
    + split; [exact Hs|].
      rewrite Hn, Hconn. unfold table_names at 1. rewrite map_app.
      simpl. now rewrite <- app_assoc.
Qed.

End UploadLoop.

(** C9.  When a file is uploaded whose derived name is already a relation
    of the store, and reading and writing it succeed, the upload returns a
    store in which that name is bound to one relation only, holding exactly
    the rows read from the new file. *)
Theorem reupload_replaces (L : Libs) (st : Store) (file : UploadedFile)
  (old df : DataFrame)
  (Hold : lookup_table (derived file) (conn st) = Some old)
  (Hread : read_csv L file = Return df)
  (Hsql : to_sql_error L (derived file) (stored_frame df) = None) :
  exists st' new,
    load_file L st file = Return st'
    /\ lookup_table (derived file) (conn st') = Some new
    /\ rows new = rows df
    /\ filter (fun r => str_eqb (fst r) (derived file)) (conn st')
       = [(derived file, new)].
Proof.
  exists (after_load st file df), (stored_frame df).
  split; [now apply load_file_ok|].
  split; [apply lookup_replaced|].
  split; [reflexivity | apply only_the_new_relation].
Qed.

Lemma reupload_replaces_witness :
  exists st' new,
    load_file Sample.libs Sample.store_with_sales_old Sample.sales_new
    = Return st'
    /\ lookup_table (lit "sales") (conn st') = Some new
    /\ rows new = [[CText (lit "north")]]
    /\ filter (fun r => str_eqb (fst r) (lit "sales")) (conn st')
       = [(lit "sales", new)].
Proof.
  exact (reupload_replaces Sample.libs Sample.store_with_sales_old
           Sample.sales_new
           {| columns := [lit "item"; lit "qty"];
              rows := [[CText (lit "pen"); CText (lit "3")];
                       [CText (lit "ink"); CText (lit "1")]] |}
           {| columns := [lit "region"];
              rows := [[CText (lit "north")]] |}
           eq_refl eq_refl eq_refl).
Defined.

(** The sample store is what uploading [sales_old] alone builds. *)
Lemma store_with_sales_old_built :
  load_files Sample.libs empty_store [Sample.sales_old]
  = Return Sample.store_with_sales_old.
Proof. reflexivity. Qed.

(** C4 as written fails: after uploading [sales.csv] with the header
    [Date, Product, Quantity, Price] the relation [sales] does not have the
    columns [date, product, quantity, price]. *)
Lemma sales_columns_not_lowered :
  ~ (exists st rel,
        load_files Sample.libs empty_store [Sample.sales_csv] = Return st
        /\ lookup_table (lit "sales") (conn st) = Some rel
        /\ columns rel
           = [lit "date"; lit "product"; lit "quantity"; lit "price"]).
Proof.
  intros (st & rel & Hload & Hlook & Hcols).
  vm_compute in Hload. injection Hload as <-.
  vm_compute in Hlook. injection Hlook as <-.
  vm_compute in Hcols. discriminate Hcols.
Qed.

(** C4, amended.  Uploading a file named [sales.csv] whose header columns,
    stripped, are [Date, Product, Quantity, Price] produces a relation named
    [sales] whose column names are exactly [Date, Product, Quantity, Price]:
    the case of column names is kept. *)
Theorem sales_columns_keep_case (L : Libs) (st : Store) (file : UploadedFile)
  (df : DataFrame)
  (Hname : name file = lit "sales.csv")
  (Hread : read_csv L file = Return df)
  (Hcols : map strip (columns df)
           = [lit "Date"; lit "Product"; lit "Quantity"; lit "Price"])
  (Hsql : to_sql_error L (lit "sales") (stored_frame df) = None) :
  exists st' rel,
    load_file L st file = Return st'
    /\ lookup_table (lit "sales") (conn st') = Some rel
    /\ columns rel = [lit "Date"; lit "Product"; lit "Quantity"; lit "Price"]
    /\ table_names (conn st') = table_names (drop_table (lit "sales") (conn st))
                                ++ [lit "sales"].
Proof.
  assert (Hd : derived file = lit "sales")
    by (unfold derived; rewrite Hname; reflexivity).
  exists (after_load st file df), (stored_frame df).
  split; [apply load_file_ok; [exact Hread | now rewrite Hd]|].
  simpl. rewrite Hd.
  split; [apply lookup_replaced|].
  split.
  - replace (map normalize_column (columns df))
      with (map (replace (lit " ") (lit "_")) (map strip (columns df)))
      by (rewrite map_map; reflexivity).
    rewrite Hcols. reflexivity.
  - unfold create_table, table_names. now rewrite map_app.
Qed.

Lemma sales_columns_keep_case_witness :
  exists st' rel,
    load_file Sample.libs empty_store Sample.sales_csv = Return st'
    /\ lookup_table (lit "sales") (conn st') = Some rel
    /\ columns rel = [lit "Date"; lit "Product"; lit "Quantity"; lit "Price"].
Proof.
  destruct (sales_columns_keep_case Sample.libs empty_store Sample.sales_csv
              {| columns := [lit "Date"; lit " Product"; lit " Quantity";
                             lit " Price"];
                 rows := [[CText (lit "2024-01-01"); CText (lit " Widget");
                           CText (lit " 2"); CText (lit " 9.99")]] |}
              eq_refl eq_refl eq_refl eq_refl)
    as (st' & rel & H1 & H2 & H3 & _).
  exists st', rel. auto.
Defined.

(** C6 as written fails: in a batch of an unreadable file followed by a
    good one, the run raises and the good file is not loaded. *)
Lemma later_file_not_loaded :
  load_files Sample.libs empty_store [Sample.broken_csv; Sample.sales_csv]
  = Raise (Fake.error "No columns to parse from file")
  /\ ~ (exists st,
           load_files Sample.libs empty_store
             [Sample.broken_csv; Sample.sales_csv] = Return st
           /\ lookup_table (lit "sales") (conn st) <> None).
Proof.
  split; [reflexivity|].
  intros (st & Hload & _). vm_compute in Hload. discriminate Hload.
Qed.

Lemma load_files_cons_inv (L : Libs) (f : UploadedFile)
  (files : list UploadedFile) (st st' : Store) :
  load_files L st (f :: files) = Return st' ->
  exists st1, load_file L st f = Return st1
              /\ load_files L st1 files = Return st'.
Proof.
  simpl. destruct (load_file L st f) as [st1|e]; [|discriminate].
  intros H. now exists st1.
Qed.

Lemma load_files_names_from (L : Libs) (files : list UploadedFile)
  (st st' : Store) (t : str) :
  load_files L st files = Return st' ->
  In t (table_names (conn st')) ->
  In t (table_names (conn st)) \/ In t (map derived files).
Proof.
  revert st. induction files as [|f files IH]; intros st H Hin.
  - injection H as <-. now left.
  - apply load_files_cons_inv in H as (st1 & Hf & Hrest).
    apply load_file_inv in Hf as (df & _ & _ & ->).
    destruct (IH _ Hrest Hin) as [Hold|Hnew]; [|right; now right].
    simpl in Hold. unfold create_table, table_names in Hold.
    rewrite map_app in Hold.
    fold (table_names (drop_table (derived f) (conn st))) in Hold.
    rewrite drop_table_names in Hold.
    apply in_app_or in Hold as [Hold|[<-|[]]].
    + left. now apply filter_In in Hold as [Hold _].
    + right. now left.
Qed.

Lemma lookup_absent (table : str) (c : Conn) :
  ~ In table (table_names c) -> lookup_table table c = None.
Proof.
  induction c as [|[t d] c IH]; [reflexivity|].
  simpl. intros Hn.
  destruct (str_eqb t table) eqn:E.
  - apply str_eqb_eq in E. tauto.
  - apply IH. tauto.
Qed.

(** A relation that is in the store is still there, under its name, after
    one more file has been loaded. *)
Lemma load_file_keeps_present (L : Libs) (st st' : Store)
  (file : UploadedFile) (table : str) :
  load_file L st file = Return st' ->
  lookup_table table (conn st) <> None ->
  lookup_table table (conn st') <> None.
Proof.
  intros H Hin.
  apply load_file_inv in H as (df & _ & _ & ->). simpl.
  destruct (list_eq_dec ascii_dec table (derived file)) as [->|Hne].
  - now rewrite lookup_replaced.
  - now rewrite lookup_other.
Qed.

(** Every file of a batch that loads has its relation in the store. *)
Lemma load_files_present (L : Libs) (files : list UploadedFile)
  (st st' : Store) :
  load_files L st files = Return st' ->
  (forall t, lookup_table t (conn st) <> None ->
             lookup_table t (conn st') <> None)
  /\ (forall g, In g files -> lookup_table (derived g) (conn st') <> None).
Proof.
  revert st. induction files as [|f files IH]; intros st H.
  - injection H as <-. split; [auto | intros g []].
  - apply load_files_cons_inv in H as (st1 & Hf & Hrest).
    destruct (IH _ Hrest) as [Hkeep Hnew].
    split.
    + intros t Ht. apply Hkeep.
      now apply (load_file_keeps_present L st st1 f).
    + intros g [<-|Hg]; [|now apply Hnew].
      apply Hkeep.
      apply load_file_inv in Hf as (df & _ & _ & ->). simpl.
      now rewrite lookup_replaced.
Qed.

Lemma load_files_upto_after (L : Libs) (before rest : list UploadedFile)
  (st st1 : Store) :
  load_files L st before = Return st1 ->
  load_files_upto L st (before ++ rest) = load_files_upto L st1 rest.
Proof.
  revert st. induction before as [|f before IH]; intros st H.
  - now injection H as <-.
  - apply load_files_cons_inv in H as (st0 & Hf & Hrest).
    simpl. rewrite Hf. now apply IH.
Qed.

(** The two readings of the loop agree on how it ends. *)
Lemma load_files_upto_outcome (L : Libs) (files : list UploadedFile)
  (st : Store) :
  match load_files L st files with
  | Return st' => load_files_upto L st files = (st', None)
  | Raise e => snd (load_files_upto L st files) = Some e
  end.
Proof.
  revert st. induction files as [|f files IH]; intros st; [reflexivity|].
  simpl. destruct (load_file L st f) as [st1|e]; simpl; [apply IH|reflexivity].
Qed.

(** C6, amended.  When reading an uploaded file raises, the exception
    leaves the upload loop: the run ends with that exception and "Data
    loaded" is not shown.  The store is then the one the files before it
    have built, whatever files come after it in the batch: each file before
    it has its relation in the store, and there is no relation under a name
    that none of them derives, so the failing file and the files after it
    are not loaded. *)
Theorem read_failure_ends_upload (L : Libs)
  (before after : list UploadedFile) (file : UploadedFile)
  (st : Store) (e : exn) (w : World)
  (Hbefore : load_files L empty_store before = Return st)
  (Hread : read_csv L file = Raise e) :
  load_files L empty_store (before ++ file :: after) = Raise e
  /\ upload L (before ++ file :: after) w = (Raise e, w)
  /\ load_files_upto L empty_store (before ++ file :: after) = (st, Some e)
  /\ (forall g, In g before ->
                exists rel, lookup_table (derived g) (conn st) = Some rel)
  /\ (forall t, ~ In t (map derived before) ->
                lookup_table t (conn st) = None).
Proof.
  assert (Hrun : load_files L empty_store (before ++ file :: after) = Raise e).
  { rewrite load_files_app, Hbefore. simpl.
    now rewrite (load_file_read_fails L st file e Hread). }
  split; [exact Hrun|].
  split.
  { unfold upload.
    destruct (before ++ file :: after) eqn:E.
    - now destruct before.
    - now rewrite Hrun. }
  split.
  { rewrite (load_files_upto_after L before (file :: after) empty_store st
               Hbefore).
    simpl. now rewrite (load_file_read_fails L st file e Hread). }
  split.
  - intros g Hg.
    destruct (load_files_present L before empty_store st Hbefore)
      as [_ Hnew].
    specialize (Hnew g Hg).
    destruct (lookup_table (derived g) (conn st)) as [rel|];
      [now exists rel | congruence].
  - intros t Ht. apply lookup_absent. intros Hin.
    destruct (load_files_names_from L before empty_store st t Hbefore Hin)
      as [[]|Hnew].
    exact (Ht Hnew).
Qed.

Lemma read_failure_ends_upload_witness :
  upload Sample.libs [Sample.sales_old; Sample.broken_csv; Sample.sales_csv]
    Sample.start
  = (Raise (Fake.error "No columns to parse from file"), Sample.start)
  /\ load_files_upto Sample.libs empty_store
       [Sample.sales_old; Sample.broken_csv; Sample.sales_csv]
     = (Sample.store_with_sales_old,
        Some (Fake.error "No columns to parse from file"))
  /\ table_names (conn Sample.store_with_sales_old) = [lit "sales"].
Proof.
  destruct (read_failure_ends_upload Sample.libs [Sample.sales_old]
              [Sample.sales_csv] Sample.broken_csv
              Sample.store_with_sales_old
              (Fake.error "No columns to parse from file") Sample.start
              eq_refl eq_refl)
    as (_ & Hupload & Hupto & _).
  split; [exact Hupload|]. split; [exact Hupto | reflexivity].
Defined.

(** C7, at two files that derive the same name: the store holds the one
    relation [sales], with the columns of the second file, while the schema
    text has two lines for [sales], the first with the columns of the
    relation that was replaced. *)
Theorem schema_keeps_replaced_relation :
  exists st,
    load_files Sample.libs empty_store [Sample.sales_old; Sample.sales_new]
    = Return st
    /\ table_names (conn st) = [lit "sales"]
    /\ schema st = lit "sales(item, qty)" ++ nl ++ lit "sales(region)" ++ nl
    /\ describe (conn st) = lit "sales(region)" ++ nl
    /\ schema st <> describe (conn st).
Proof.
  eexists. split; [reflexivity|].
  split; [reflexivity|]. split; [reflexivity|]. split; [reflexivity|].
  discriminate.
Qed.

Lemma table_name_drops_every_csv_witness :
  exists pieces,
    lit "a.csv b.csv" = join (lit ".csv") pieces
    /\ [lit "a"; lit " b"; lit ""] = pieces
    /\ table_name (lit "a.csv b.csv")
       = map underscore_space (lower (concat pieces)).
Proof.
  destruct (table_name_drops_every_csv (lit "a.csv b.csv"))
    as ((pieces & _ & Hjoin & _ & Huniq & Hname) & _).
  exists pieces.
  split; [exact Hjoin|].
  split; [|exact Hname].
  apply Huniq; [discriminate | repeat constructor | reflexivity].
Defined.

(** ** The string methods on sample texts *)

Example replace_fences :
  replace (lit "```") (lit "") (lit "`````x```y") = lit "``xy".
Proof. reflexivity. Qed.

Example replace_empty_old :
  replace (lit "") (lit "-") (lit "abc") = lit "-a-b-c-".
Proof. reflexivity. Qed.

Example split_semicolons :
  split (lit ";") (lit "a;b;;c") = [lit "a"; lit "b"; lit ""; lit "c"].
Proof. reflexivity. Qed.

Example split_extension :
  split (lit ".csv") (lit "a.csv b.csv") = [lit "a"; lit " b"; lit ""].
Proof. reflexivity. Qed.

Example strip_both_ends :
  strip (lit "  a b " ++ nl) = lit "a b".
Proof. reflexivity. Qed.

Example lower_keeps_others :
  lower (lit "Sales Q1.CSV") = lit "sales q1.csv".
Proof. reflexivity. Qed.

Example table_name_single_pass :
  table_name (lit "a.c.csvsv") = lit "a.csv".
Proof. reflexivity. Qed.

Example table_name_capital_extension :
  table_name (lit "DATA.CSV") = lit "data.csv".
Proof. reflexivity. Qed.

Example normalize_column_inner_space :
  normalize_column (lit " Unit Price ") = lit "Unit_Price".
Proof. reflexivity. Qed.

(** * Further properties of the script *)

(** ** Whitespace at the ends *)

Section Whitespace.

Lemma lstrip_starts_clean (s : str) : starts_clean (lstrip s) = true.
Proof.
  induction s as [|c s IH]; [reflexivity|].
  simpl. destruct (isspace c) eqn:E; [exact IH|].
  simpl. now rewrite E.
Qed.

Lemma lstrip_fixed (s : str) : starts_clean s = true -> lstrip s = s.
Proof.
  destruct s as [|c s]; [reflexivity|].
  simpl. now destruct (isspace c).
Qed.

Lemma starts_clean_prefix (s t : str) :
  starts_clean (s ++ t) = true -> starts_clean s = true.
Proof. now destruct s. Qed.

Lemma strip_ends_clean (s : str) : ends_clean (strip s) = true.
Proof.
  unfold ends_clean, strip, rstrip. rewrite rev_involutive.
  apply lstrip_starts_clean.
Qed.

Lemma strip_starts_clean (s : str) : starts_clean (strip s) = true.
Proof.
  unfold strip.
  destruct (rstrip_prefix (lstrip s)) as [b Hb].
  apply (starts_clean_prefix _ b). rewrite <- Hb.
  apply lstrip_starts_clean.
Qed.

Lemma strip_fixed (s : str) :
  starts_clean s = true -> ends_clean s = true -> strip s = s.
Proof.
  intros Hs He. unfold strip, rstrip.
  rewrite (lstrip_fixed s Hs), (lstrip_fixed (rev s) He).
  apply rev_involutive.
Qed.


Lemma underscore_space_idempotent (c : ascii) :
  underscore_space (underscore_space c) = underscore_space c.
Proof.
  unfold underscore_space.
  destruct (Ascii.eqb " "%char c) eqn:E; [reflexivity | now rewrite E].
Qed.

Lemma starts_clean_underscored (s : str) :
  starts_clean s = true -> starts_clean (map underscore_space s) = true.
Proof.
  destruct s as [|c s]; [reflexivity|].
  simpl. unfold underscore_space.
  destruct (Ascii.eqb_spec " "%char c) as [<-|_]; [discriminate | auto].
Qed.

End Whitespace.

(** X3.  Normalizing a column name twice is normalizing it once, and the
    normalized name neither holds a space nor begins or ends with
    whitespace. *)
Theorem normalize_column_settled (c : str) :
  normalize_column (normalize_column c) = normalize_column c
  /\ ~ In " "%char (normalize_column c)
  /\ starts_clean (normalize_column c) = true
  /\ ends_clean (normalize_column c) = true.
Proof.
  assert (Hs : starts_clean (normalize_column c) = true).
  { rewrite normalize_column_chars.
    apply starts_clean_underscored, strip_starts_clean. }
  assert (He : ends_clean (normalize_column c) = true).
  { rewrite normalize_column_chars. unfold ends_clean.
    rewrite <- map_rev. apply starts_clean_underscored.
    apply strip_ends_clean. }
  split; [|split; [apply normalize_column_no_space | now split]].
  rewrite (normalize_column_chars (normalize_column c)).
  rewrite (strip_fixed _ Hs He), normalize_column_chars, map_map.
  apply map_ext. intros a. apply underscore_space_idempotent.
Qed.

(** ** The table name *)

(** X1.  Whatever the file is called, its table name holds no space and no
    capital letter, and lower-casing it again changes nothing. *)
Theorem table_name_shape (file_name : str) :
  ~ In " "%char (table_name file_name)
  /\ Forall (fun c => isupper c = false) (table_name file_name)
  /\ lower (table_name file_name) = table_name file_name.
Proof.
  pose proof (table_name_lower_no_space file_name) as H.
  rewrite Forall_forall in H.
  split; [intros Hin; now destruct (H _ Hin)|].
  split; [apply Forall_forall; intros c Hc; now destruct (H _ Hc)|].
  unfold lower. rewrite <- (map_id (table_name file_name)) at 2.
  apply map_ext_in. intros c Hc. unfold lower_char.
  destruct (H _ Hc) as [_ Hup]. now rewrite Hup.
Qed.

(** X2.  For a file name that holds [".csv"] as its extension only, the
    table name is the name without the extension, lower-cased, with each
    space turned into an underscore. *)
Theorem table_name_of_plain_name (stem : str)
  (Hstem : contains (lit ".csv") stem = false) :
  table_name (stem ++ lit ".csv") = map underscore_space (lower stem).
Proof.
  rewrite table_name_plain_extension by exact Hstem.
  unfold spec_table_name. rewrite without_extension_stem.
  apply (replace_char " "%char "_"%char).
Qed.

Lemma table_name_of_plain_name_witness :
  table_name (lit "Sales Q1 2024" ++ lit ".csv") = lit "sales_q1_2024".
Proof.
  exact (table_name_of_plain_name (lit "Sales Q1 2024") eq_refl).
Defined.

(** ** The model's answer *)

Section Answer.

Lemma replace_absent (old new s : str) :
  old <> [] -> contains old s = false -> replace old new s = s.
Proof.
  intros Hold. revert s.
  apply (scan_ind old
           (fun s => contains old s = false -> replace old new s = s));
    [exact Hold | | |].
  - intros _. now apply replace_nil.
  - intros t _ H. rewrite contains_startswith in H; [discriminate|].
    apply startswith_app.
  - intros c s Hno IH H. rewrite replace_step by exact Hno.
    f_equal. apply IH.
    simpl in H. now apply orb_false_iff in H as [_ H].
Qed.

Lemma contains_longer (sub more s : str) :
  contains sub s = false -> contains (sub ++ more) s = false.
Proof.
  intros H. destruct (contains (sub ++ more) s) eqn:E; [|reflexivity].
  apply contains_occurrence in E as (a & b & ->).
  rewrite <- H. symmetry. apply contains_occurrence.
  exists a, (more ++ b). now rewrite <- app_assoc.
Qed.

Lemma split_at_first (c : ascii) (body rest : str) :
  ~ In c body ->
  split [c] (body ++ c :: rest) = body :: split [c] rest.
Proof.
  induction body as [|x body IH]; intros Hno.
  - simpl app. change (c :: rest) with ([c] ++ rest).
    now rewrite split_match.
  - simpl app. rewrite split_step.
    + rewrite IH; [reflexivity|]. intros H. apply Hno. now right.
    + simpl. rewrite andb_true_r.
      destruct (Ascii.eqb_spec c x) as [->|_]; [|reflexivity].
      exfalso. apply Hno. now left.
Qed.

End Answer.



(** X5.  The post-processing of [ask_ai] always yields a statement, the
    statement does not begin with whitespace, and post-processing a
    statement it has yielded gives that statement again. *)
Theorem first_statement_stable (raw : str) :
  exists stmt,
    first_statement raw = Return stmt
    /\ starts_clean stmt = true
    /\ first_statement stmt = Return stmt.
Proof.
  destruct (first_statement_shape raw)
    as (body & rest & Hclean & _ & Hno & Hfirst).
  exists (body ++ [semicolon]).
  assert (Hstart : starts_clean (body ++ [semicolon]) = true).
  { assert (H : starts_clean (cleaned raw) = true)
      by apply strip_starts_clean.
    rewrite Hclean in H.
    destruct body as [|c body]; [reflexivity | exact H]. }
  assert (Hfence : contains fence (body ++ [semicolon]) = false).
  { apply contains_false_snoc; [| cbv; intuition discriminate | discriminate].
    pose proof (cleaned_fence_free raw) as Hf.
    rewrite Hclean in Hf. now apply contains_false_app_l in Hf. }
  split; [exact Hfirst|]. split; [exact Hstart|].
  unfold first_statement.
  rewrite (replace_absent (lit "```sql") (lit "") (body ++ [semicolon]));
    [| discriminate | exact (contains_longer fence (lit "sql") _ Hfence)].
  rewrite (replace_absent (lit "```") (lit "") (body ++ [semicolon]));
    [| discriminate | exact Hfence].
  rewrite strip_fixed;
    [| exact Hstart | unfold ends_clean; now rewrite rev_app_distr].
  change (lit ";") with [semicolon].
  now rewrite (split_at_first semicolon body [] Hno).
Qed.

(** ** [run_sql] and [explain] *)

(** X6.  [run_sql] never raises an [Exception] and never sends a request to
    the model; a frame it returns that is not empty is the result of the
    query, and then nothing was shown. *)
Theorem run_sql_outcomes (L : Libs) (c : Conn) (query : str) (w : World) :
  (forall e, fst (run_sql L c query w) = Raise e -> is_exception e = false)
  /\ calls (snd (run_sql L c query w)) = calls w
  /\ (forall df, fst (run_sql L c query w) = Return df ->
                 df_empty df = false ->
                 read_sql_query L query c = Return df
                 /\ snd (run_sql L c query w) = w).
Proof.
  unfold run_sql.
  destruct (read_sql_query L query c) as [df0|e0]; simpl.
  - split; [discriminate|]. split; [reflexivity|].
    intros df [= <-] _. now split.
  - destruct (is_exception e0) eqn:E; simpl.
    + split; [discriminate|]. split; [reflexivity|].
      intros df [= <-]. discriminate.
    + split; [now intros e [= <-]|]. split; [reflexivity | discriminate].
Qed.

Lemma run_sql_outcomes_witness :
  read_sql_query Sample.libs (lit "SELECT * FROM sales;")
    (conn Sample.store_with_sales_old)
  = Return {| columns := [lit "item"; lit "qty"];
              rows := [[CText (lit "pen"); CText (lit "3")];
                       [CText (lit "ink"); CText (lit "1")]] |}.
Proof.
  exact (proj1 (proj2 (proj2 (run_sql_outcomes Sample.libs
                                (conn Sample.store_with_sales_old)
                                (lit "SELECT * FROM sales;") Sample.start))
                  _ eq_refl eq_refl)).
Defined.

(** ** The upload loop as a whole *)

Section Batches.

Variable L : Libs.

Lemma load_file_keeps (st st' : Store) (file : UploadedFile) (table : str) :
  load_file L st file = Return st' ->
  derived file <> table ->
  lookup_table table (conn st') = lookup_table table (conn st).
Proof.
  intros H Hne.
  apply load_file_inv in H as (df & _ & _ & ->).
  simpl. apply lookup_other. congruence.
Qed.

Lemma load_files_keep (files : list UploadedFile) (st st' : Store)
  (table : str) :
  load_files L st files = Return st' ->
  (forall f, In f files -> derived f <> table) ->
  lookup_table table (conn st') = lookup_table table (conn st).
Proof.
  revert st. induction files as [|f files IH]; intros st H Hne.
  - now injection H as <-.
  - simpl in H. destruct (load_file L st f) as [st1|e] eqn:E;
      [|discriminate].
    simpl in H. rewrite (IH st1 H).
    + apply (load_file_keeps st st1 f); [exact E|]. apply Hne. now left.
    + intros g Hg. apply Hne. now right.
Qed.

End Batches.

(** X8.  After any batch that loads, no two relations of the store have the
    same name, and every relation is named after a file of the batch. *)
Theorem upload_names_unique (L : Libs) (files : list UploadedFile)
  (st : Store)
  (Hload : load_files L empty_store files = Return st) :
  NoDup (table_names (conn st))
  /\ (forall t, In t (table_names (conn st)) -> In t (map derived files)).
Proof.
  split.
  - apply (load_files_names_unique L files empty_store st); [constructor|].
    exact Hload.
  - intros t Hin.
    destruct (load_files_names_from L files empty_store st t Hload Hin)
      as [[]|Hnew].
    exact Hnew.
Qed.

Lemma upload_names_unique_witness :
  NoDup [lit "stock_levels"; lit "sales"].
Proof.
  refine (proj1 (upload_names_unique Sample.libs
           [Sample.sales_old; Batch.stock_csv; Sample.sales_new]
           {| conn := [(lit "stock_levels",
                        {| columns := [lit "Item_Name"; lit "On_Hand"];
                           rows := [[CText (lit "pen"); CText (lit "40")]] |});
                       (lit "sales",
                        {| columns := [lit "region"];
                           rows := [[CText (lit "north")]] |})];
              schema := lit "sales(item, qty)" ++ nl
                        ++ lit "stock_levels(Item_Name, On_Hand)" ++ nl
                        ++ lit "sales(region)" ++ nl |}
           eq_refl)).
Defined.

(** X9.  When the files of a batch derive pairwise different table names,
    the schema text is exactly one line [name(col1, col2, ...)] per
    relation of the store, in upload order, and the relations are the
    derived names of the files. *)
Theorem schema_of_distinct_names (L : Libs) (files : list UploadedFile)
  (st : Store)
  (Hnames : NoDup (map derived files))
  (Hload : load_files L empty_store files = Return st) :
  schema st = describe (conn st)
  /\ table_names (conn st) = map derived files.
Proof.
  apply (schema_describes_store L files empty_store st);
    [reflexivity | exact Hnames | | exact Hload].
  intros f _ [].
Qed.

Lemma schema_of_distinct_names_witness :
  exists st,
    load_files Sample.libs empty_store [Sample.sales_csv; Batch.stock_csv]
    = Return st
    /\ schema st
       = lit "sales(Date, Product, Quantity, Price)" ++ nl
         ++ lit "stock_levels(Item_Name, On_Hand)" ++ nl
    /\ schema st = describe (conn st).
Proof.
  eexists. split; [reflexivity|]. split; [reflexivity|].
  apply (schema_of_distinct_names Sample.libs
           [Sample.sales_csv; Batch.stock_csv]).
  - vm_compute. repeat constructor; simpl; intuition discriminate.
  - reflexivity.
Defined.

(** X10.  A batch that loads adds to the schema text one line per file, in
    upload order, made of the file's table name and its normalized column
    names, also when several files derive the same name. *)
Theorem schema_line_per_file (L : Libs) (files : list UploadedFile)
  (st st' : Store)
  (Hload : load_files L st files = Return st') :
  exists dfs,
    Forall2 (fun f df => read_csv L f = Return df) files dfs
    /\ schema st'
       = schema st
         ++ concat (map (fun fd =>
                           schema_line (table_name (name (fst fd)))
                             (map normalize_column (columns (snd fd))))
                      (combine files dfs)).
Proof.
  revert st Hload. induction files as [|f files IH]; intros st Hload.
  - injection Hload as <-. exists []. split; [constructor|].
    simpl. now rewrite app_nil_r.
  - apply load_files_cons_inv in Hload as (st1 & Hf & Hrest).
    apply load_file_inv in Hf as (df & Hread & _ & ->).
    destruct (IH _ Hrest) as (dfs & Hall & Hschema).
    exists (df :: dfs). split; [now constructor|].
    rewrite Hschema. simpl. now rewrite <- app_assoc.
Qed.

Lemma schema_line_per_file_witness :
  exists st,
    load_files Sample.libs empty_store [Sample.sales_old; Sample.sales_new]
    = Return st
    /\ exists dfs,
         schema st
         = concat (map (fun fd =>
                          schema_line (table_name (name (fst fd)))
                            (map normalize_column (columns (snd fd))))
                     (combine [Sample.sales_old; Sample.sales_new] dfs)).
Proof.
  eexists. split; [reflexivity|].
  destruct (schema_line_per_file Sample.libs
              [Sample.sales_old; Sample.sales_new] empty_store _ eq_refl)
    as (dfs & _ & H).
  exists dfs. exact H.
Defined.

(** X11.  After a batch that loads, the relation under a file's table name
    is the frame read from that file, with its column names normalized,
    provided no later file of the batch derives the same name: the last
    upload under a name is the one that stays. *)
Theorem last_upload_wins (L : Libs) (before after : list UploadedFile)
  (file : UploadedFile) (df : DataFrame) (st st' : Store)
  (Hload : load_files L st (before ++ file :: after) = Return st')
  (Hread : read_csv L file = Return df)
  (Hlast : forall g, In g after -> derived g <> derived file) :
  lookup_table (derived file) (conn st')
  = Some {| columns := map normalize_column (columns df); rows := rows df |}.
Proof.
  rewrite load_files_app in Hload.
  destruct (load_files L st before) as [st0|e]; [|discriminate].
  simpl in Hload.
  destruct (load_file L st0 file) as [st1|e] eqn:Hfile; [|discriminate].
  simpl in Hload.
  rewrite (load_files_keep L after st1 st' (derived file) Hload Hlast).
  apply load_file_inv in Hfile as (df' & Hread' & _ & ->).
  rewrite Hread in Hread'. injection Hread' as <-.
  simpl. apply lookup_replaced.
Qed.

Lemma last_upload_wins_witness :
  exists st,
    load_files Sample.libs empty_store
      [Sample.sales_old; Sample.sales_new; Batch.stock_csv] = Return st
    /\ lookup_table (lit "sales") (conn st)
       = Some {| columns := [lit "region"];
                 rows := [[CText (lit "north")]] |}.
Proof.
  eexists. split; [reflexivity|].
  apply (last_upload_wins Sample.libs [Sample.sales_old] [Batch.stock_csv]
           Sample.sales_new
           {| columns := [lit "region"]; rows := [[CText (lit "north")]] |}
           empty_store _ eq_refl eq_refl).
  intros g [<-|[]]. vm_compute. discriminate.
Defined.

(** X12.  A batch that loads leaves every relation alone whose name no file
    of the batch derives, and it creates no relation under such a name:
    every relation of the store afterwards was there before or is named
    after a file of the batch. *)
Theorem upload_leaves_others (L : Libs) (files : list UploadedFile)
  (st st' : Store) (table : str)
  (Hload : load_files L st files = Return st')
  (Hother : forall f, In f files -> derived f <> table) :
  lookup_table table (conn st') = lookup_table table (conn st)
  /\ (In table (table_names (conn st')) -> In table (table_names (conn st))).
Proof.
  split; [exact (load_files_keep L files st st' table Hload Hother)|].
  intros Hin.
  destruct (load_files_names_from L files st st' table Hload Hin)
    as [Hold|Hnew]; [exact Hold|].
  apply in_map_iff in Hnew as (f & Hf & Hfin).
  now destruct (Hother f Hfin).
Qed.

Lemma upload_leaves_others_witness :
  exists st,
    load_files Sample.libs Sample.store_with_sales_old [Batch.stock_csv]
    = Return st
    /\ lookup_table (lit "sales") (conn st)
       = lookup_table (lit "sales") (conn Sample.store_with_sales_old).
Proof.
  eexists. split; [reflexivity|].
  apply (proj1 (upload_leaves_others Sample.libs [Batch.stock_csv]
                  Sample.store_with_sales_old _ (lit "sales") eq_refl
                  ltac:(intros f [<-|[]]; vm_compute; discriminate))).
Defined.

Lemma load_files_loadable (L : Libs) (files : list UploadedFile)
  (st : Store) :
  (exists st', load_files L st files = Return st')
  <-> Forall (loadable L) files.
Proof.
  revert st. induction files as [|f files IH]; intros st.
  - split; [constructor | now exists st].
  - split.
    + intros (st' & H).
      apply load_files_cons_inv in H as (st1 & Hf & Hrest).
      constructor.
      * apply load_file_inv in Hf as (df & Hread & Hsql & _).
        now exists df.
      * apply (IH st1). now exists st'.
    + intros H. apply Forall_cons_iff in H as [(df & Hread & Hsql) Hrest].
      destruct (proj2 (IH (after_load st f df)) Hrest) as (st' & H').
      exists st'. simpl.
      now rewrite (load_file_ok L st f df Hread Hsql).
Qed.

(** X13.  A batch loads exactly when every file of it can be read and its
    frame is accepted by the engine; otherwise the batch fails as a whole,
    with the exception of the first file that cannot be read or is
    refused. *)
Theorem batch_loads_iff (L : Libs) (files : list UploadedFile) (st : Store) :
  ((exists st', load_files L st files = Return st')
   <-> Forall (loadable L) files)
  /\ (forall e, load_files L st files = Raise e ->
        exists before file after,
          files = before ++ file :: after
          /\ Forall (loadable L) before
          /\ (read_csv L file = Raise e
              \/ exists df, read_csv L file = Return df
                            /\ to_sql_error L (derived file) (stored_frame df)
                               = Some e)).
Proof.
  split; [exact (load_files_loadable L files st)|].
  revert st. induction files as [|f files IH]; intros st e H;
    [discriminate|].
  simpl in H.
  destruct (load_file L st f) as [st1|e1] eqn:Hf; simpl in H.
  - destruct (IH st1 e H) as (before & file & after & -> & Hall & Hfail).
    exists (f :: before), file, after.
    split; [reflexivity|]. split; [|exact Hfail].
    constructor; [|exact Hall].
    apply load_file_inv in Hf as (df & Hread & Hsql & _). now exists df.
  - injection H as <-. exists [], f, files.
    split; [reflexivity|]. split; [constructor|].
    unfold load_file, to_sql, bind_outcome in Hf.
    destruct (read_csv L f) as [df|e0]; [|left; congruence].
    right. exists df. split; [reflexivity|].
    fold (stored_frame df) in Hf. fold (derived f) in Hf.
    destruct (to_sql_error L (derived f) (stored_frame df));
      [congruence | discriminate].
Qed.

Lemma batch_loads_iff_witness :
  ~ Forall (loadable Sample.libs) [Sample.sales_csv; Batch.clash_csv].
Proof.
  intros H.
  destruct (proj2 (proj1 (batch_loads_iff Sample.libs
                            [Sample.sales_csv; Batch.clash_csv] empty_store))
              H)
    as (st' & Hload).
  vm_compute in Hload. discriminate Hload.
Defined.

(** ** The chart *)

Section Columns.

Variable f : nat -> bool.
Variable b : bool.

Lemma pick_cons (c : str) (cols : list str) (start : nat) :
  pick f b start (c :: cols)
  = if Bool.eqb (f start) b
    then c :: pick f b (S start) cols
    else pick f b (S start) cols.
Proof. unfold pick. simpl. now destruct (Bool.eqb (f start) b). Qed.

Lemma pick_nil (cols : list str) (start : nat) :
  pick f b start cols = [] <->
  (forall i, i < length cols -> f (start + i) = negb b).
Proof.
  revert start. induction cols as [|c cols IH]; intros start.
  - split; [intros _ i Hi; simpl in Hi; lia | reflexivity].
  - rewrite pick_cons.
    destruct (Bool.eqb (f start) b) eqn:E.
    + split; [discriminate|].
      intros H. specialize (H 0 (Nat.lt_0_succ _)).
      rewrite Nat.add_0_r in H. apply eqb_prop in E.
      rewrite E in H. now destruct b.
    + rewrite IH. apply eqb_false_iff in E.
      split.
      * intros H [|i] Hi.
        -- rewrite Nat.add_0_r. destruct (f start), b; simpl; congruence.
        -- rewrite Nat.add_succ_r. apply (H i). simpl in Hi. lia.
      * intros H i Hi. specialize (H (S i)).
        rewrite Nat.add_succ_r in H. apply H. simpl. lia.
Qed.

Lemma pick_head (cols : list str) (start : nat) (x : str) (rest : list str) :
  pick f b start cols = x :: rest ->
  exists i, nth_error cols i = Some x
            /\ f (start + i) = b
            /\ (forall k, k < i -> f (start + k) = negb b).
Proof.
  revert start. induction cols as [|c cols IH]; intros start.
  - discriminate.
  - rewrite pick_cons.
    destruct (Bool.eqb (f start) b) eqn:E.
    + intros [= <- _]. exists 0.
      rewrite Nat.add_0_r. apply eqb_prop in E.
      repeat split; [exact E | intros k Hk; lia].
    + intros H. destruct (IH _ H) as (i & Hnth & Hf & Hbefore).
      exists (S i). rewrite Nat.add_succ_r.
      repeat split; [exact Hnth | exact Hf |].
      intros [|k] Hk.
      * rewrite Nat.add_0_r. apply eqb_false_iff in E.
        destruct (f start), b; simpl; congruence.
      * rewrite Nat.add_succ_r. apply (Hbefore k). lia.
Qed.

End Columns.

Section Chart.

Variable P : PageLibs.

Lemma select_dtypes_nil (number : bool) (df : DataFrame) :
  select_dtypes P number df = [] <->
  (forall i, i < length (columns df) -> is_number P df i = negb number).
Proof. apply (pick_nil (is_number P df) number (columns df) 0). Qed.

Lemma select_dtypes_head (number : bool) (df : DataFrame) (x : str)
  (rest : list str) :
  select_dtypes P number df = x :: rest ->
  exists i, nth_error (columns df) i = Some x
            /\ is_number P df i = number
            /\ (forall k, k < i -> is_number P df k = negb number).
Proof. apply (pick_head (is_number P df) number (columns df) 0). Qed.

Lemma chart_for_columns (chart_type x y : str) (c : Chart) :
  chart_for chart_type x y = Some c -> x_column c = x /\ y_column c = y.
Proof.
  unfold chart_for.
  destruct (str_eqb chart_type (lit "Bar")); [now intros [= <-]|].
  destruct (str_eqb chart_type (lit "Line")); [now intros [= <-]|].
  destruct (str_eqb chart_type (lit "Pie")); [now intros [= <-]|].
  discriminate.
Qed.

End Chart.

Section ChartSection.

Variable P : PageLibs.

Lemma showing_changes (x : widget) (w : World) : showing x w <> w.
Proof.
  intros H. apply (f_equal (fun v => length (shown v))) in H.
  simpl in H. rewrite length_app in H. simpl in H. lia.
Qed.

(** What the chart section does, by the two column lists. *)
Lemma chart_section_cases (df : DataFrame) (chart_type : str) (w : World) :
  (select_dtypes P true df = [] \/ select_dtypes P false df = [])
  /\ chart_section P df chart_type w
     = (Return None, showing (StInfo not_enough) w)
  \/ exists x xs y ys,
       select_dtypes P false df = x :: xs
       /\ select_dtypes P true df = y :: ys
       /\ chart_section P df chart_type w
          = match chart_for chart_type x y with
            | Some c =>
                match pyplot_error P df c with
                | Some e => (Raise e, w)
                | None => (Return (Some c), w)
                end
            | None => (Return None, w)
            end.
Proof.
  unfold chart_section.
  destruct (select_dtypes P true df) as [|y ys];
    [left; split; [now left | reflexivity]|].
  destruct (select_dtypes P false df) as [|x xs];
    [left; split; [now right | reflexivity]|].
  right. exists x, xs, y, ys. split; [reflexivity|]. split; [reflexivity|].
  cbn [length Nat.leb andb].
  destruct (chart_for chart_type x y) as [c|]; [|reflexivity].
  now destruct (pyplot_error P df c).
Qed.

End ChartSection.

(** X14.  When a chart is drawn, its category axis is the first column that
    is not a number column and its values are the first number column, so
    two different columns of the frame; drawing shows no message. *)
Theorem chart_axes (P : PageLibs) (df : DataFrame) (chart_type : str)
  (c : Chart) (w w' : World)
  (Hchart : chart_section P df chart_type w = (Return (Some c), w')) :
  exists i j,
    i <> j
    /\ nth_error (columns df) i = Some (x_column c)
    /\ nth_error (columns df) j = Some (y_column c)
    /\ is_number P df i = false
    /\ is_number P df j = true
    /\ (forall k, k < i -> is_number P df k = true)
    /\ (forall k, k < j -> is_number P df k = false)
    /\ w' = w.
Proof.
  destruct (chart_section_cases P df chart_type w)
    as [[_ H]|(x & xs & y & ys & Hx & Hy & H)];
    rewrite H in Hchart; [discriminate|].
  destruct (chart_for chart_type x y) as [c0|] eqn:Hfor; [|discriminate].
  destruct (pyplot_error P df c0); [discriminate|].
  injection Hchart as <- <-.
  destruct (chart_for_columns chart_type x y c0 Hfor) as [-> ->].
  destruct (select_dtypes_head P false df _ _ Hx) as (i & Hi & Hfi & Hbi).
  destruct (select_dtypes_head P true df _ _ Hy) as (j & Hj & Hfj & Hbj).
  exists i, j. repeat split; try assumption.
  intros <-. congruence.
Qed.

Lemma chart_axes_witness :
  exists i j,
    i <> j
    /\ nth_error (columns FakePage.revenue) i = Some (lit "product")
    /\ nth_error (columns FakePage.revenue) j = Some (lit "revenue").
Proof.
  destruct (chart_axes FakePage.libs FakePage.revenue (lit "Pie")
              {| call := AxPie; x_column := lit "product";
                 y_column := lit "revenue";
                 title := Some (lit "revenue by product") |}
              Sample.start Sample.start eq_refl)
    as (i & j & Hij & Hi & Hj & _).
  exists i, j. auto.
Defined.

(** X15.  The chart section shows "Not enough categorical + numeric data to
    create a chart." exactly when every column is a number column or none
    is, as for a frame without columns; it never sends a request to the
    model, and an exception it raises comes from drawing the chart. *)
Theorem chart_needs_both_kinds (P : PageLibs) (df : DataFrame)
  (chart_type : str) (w : World) :
  ((forall i, i < length (columns df) -> is_number P df i = true)
   \/ (forall i, i < length (columns df) -> is_number P df i = false)
   <-> chart_section P df chart_type w
       = (Return None, showing (StInfo not_enough) w))
  /\ calls (snd (chart_section P df chart_type w)) = calls w
  /\ (forall e, fst (chart_section P df chart_type w) = Raise e ->
                exists c, pyplot_error P df c = Some e).
Proof.
  destruct (chart_section_cases P df chart_type w)
    as [[Hnone H]|(x & xs & y & ys & Hx & Hy & H)]; rewrite H.
  - split; [|split; [reflexivity | discriminate]].
    split; [reflexivity|]. intros _.
    destruct Hnone as [Hn|Hn].
    + right. exact (proj1 (select_dtypes_nil P true df) Hn).
    + left. exact (proj1 (select_dtypes_nil P false df) Hn).
  - assert (Hsome : ~ ((forall i, i < length (columns df) ->
                                  is_number P df i = true)
                       \/ (forall i, i < length (columns df) ->
                                     is_number P df i = false))).
    { intros [Hall|Hall].
      - apply (proj2 (select_dtypes_nil P false df)) in Hall. congruence.
      - apply (proj2 (select_dtypes_nil P true df)) in Hall. congruence. }
    destruct (chart_for chart_type x y) as [c|].
    + destruct (pyplot_error P df c) as [e|] eqn:He.
      * split; [split; [tauto | discriminate]|].
        split; [reflexivity|]. intros e' [= <-]. now exists c.
      * split; [split; [tauto | discriminate]|].
        split; [reflexivity | discriminate].
    + split; [|split; [reflexivity | discriminate]].
      split; [tauto|]. intros [= Hw]. symmetry in Hw.
      now apply showing_changes in Hw.
Qed.

Lemma chart_needs_both_kinds_witness :
  chart_section FakePage.libs empty_frame (lit "Bar") Sample.start
  = (Return None, showing (StInfo not_enough) Sample.start).
Proof.
  apply (proj1 (proj1 (chart_needs_both_kinds FakePage.libs empty_frame
                         (lit "Bar") Sample.start))).
  left. intros i Hi. simpl in Hi. lia.
Defined.

(** ** One run of the page *)

Section Runs.

Variable L : Libs.
Variable P : PageLibs.

Lemma bind_return_inv {A B : Type} (m : M A) (k : A -> M B) (w w' : World)
  (b : B) :
  bind m k w = (Return b, w') ->
  exists a w1, m w = (Return a, w1) /\ k a w1 = (Return b, w').
Proof.
  unfold bind. destruct (m w) as [[a|e] w1]; [|discriminate].
  intros H. now exists a, w1.
Qed.

Lemma load_file_df_inv (st st' : Store) (file : UploadedFile)
  (d : DataFrame) :
  load_file_df L st file = Return (st', d) ->
  exists df, read_csv L file = Return df
             /\ to_sql_error L (derived file) (stored_frame df) = None
             /\ st' = after_load st file df
             /\ d = stored_frame df.
Proof.
  unfold load_file_df, to_sql, bind_outcome.
  destruct (read_csv L file) as [df|e]; [|discriminate].
  fold (stored_frame df). fold (derived file).
  destruct (to_sql_error L (derived file) (stored_frame df)) eqn:E;
    [discriminate|].
  intros [= <- <-]. now exists df.
Qed.

(** The loop with [df] builds the store that the loop without it builds. *)
Lemma load_files_df_store (files : list UploadedFile) (st st' : Store)
  (d d' : option DataFrame) :
  load_files_df L st d files = Return (st', d') ->
  load_files L st files = Return st'.
Proof.
  revert st d. induction files as [|f files IH]; intros st d H.
  - now injection H as <- _.
  - simpl in H. destruct (load_file_df L st f) as [[st1 d1]|e] eqn:E;
      [|discriminate].
    simpl in H.
    apply load_file_df_inv in E as (df & Hread & Hsql & -> & _).
    simpl. rewrite (load_file_ok L st f df Hread Hsql). simpl.
    exact (IH _ _ H).
Qed.

(** After the loop [df] is the frame of the last file. *)
Lemma load_files_df_last (files : list UploadedFile) (file : UploadedFile)
  (st st' : Store) (d d' : option DataFrame) :
  load_files_df L st d (files ++ [file]) = Return (st', d') ->
  exists df, read_csv L file = Return df /\ d' = Some (stored_frame df).
Proof.
  revert st d. induction files as [|f files IH]; intros st d H.
  - simpl in H. destruct (load_file_df L st file) as [[st1 d1]|e] eqn:E;
      [|discriminate].
    simpl in H. injection H as <- <-.
    apply load_file_df_inv in E as (df & Hread & _ & _ & ->).
    now exists df.
  - simpl in H. destruct (load_file_df L st f) as [[st1 d1]|e];
      [|discriminate].
    simpl in H. exact (IH _ _ H).
Qed.

Lemma df_empty_stored (df : DataFrame) :
  df_empty (stored_frame df) = df_empty df.
Proof. unfold df_empty, stored_frame. simpl. now rewrite length_map. Qed.

(** *** Counting requests *)

Lemma at_most_ret {A : Type} (a : A) : at_most 0 (ret a).
Proof. intros w. simpl. lia. Qed.

Lemma at_most_show (x : widget) : at_most 0 (show x).
Proof. intros w. simpl. lia. Qed.

Lemma at_most_raise {A : Type} (e : exn) : at_most 0 (@raise A e).
Proof. intros w. simpl. lia. Qed.

Lemma at_most_lift {A : Type} (x : outcome A) : at_most 0 (lift x).
Proof. intros w. simpl. lia. Qed.

Lemma at_most_more {A : Type} (a b : nat) (m : M A) :
  a <= b -> at_most a m -> at_most b m.
Proof. intros Hab H w. specialize (H w). lia. Qed.

Lemma at_most_bind {A B : Type} (a b : nat) (m : M A) (k : A -> M B) :
  at_most a m -> (forall x, at_most b (k x)) -> at_most (a + b) (bind m k).
Proof.
  intros Hm Hk w. unfold bind. specialize (Hm w).
  destruct (m w) as [[x|e] w1]; simpl in *.
  - specialize (Hk x w1). lia.
  - lia.
Qed.

Lemma at_most_call_ai (prompt : str) : at_most 1 (call_ai L prompt).
Proof. intros w. rewrite call_ai_counts. lia. Qed.

Lemma at_most_ask_ai (schema question : str) :
  at_most 1 (ask_ai L schema question).
Proof.
  unfold ask_ai. apply (at_most_bind 1 0); [apply at_most_call_ai|].
  intros raw w. simpl. lia.
Qed.

Lemma at_most_run_sql (c : Conn) (query : str) : at_most 0 (run_sql L c query).
Proof.
  unfold run_sql. destruct (read_sql_query L query c) as [df|e].
  - apply at_most_ret.
  - destruct (is_exception e); [|apply at_most_raise].
    apply (at_most_bind 0 0); [apply at_most_show|].
    intros _. apply at_most_ret.
Qed.

Lemma at_most_explain (df : DataFrame) : at_most 1 (explain L df).
Proof.
  unfold explain. destruct (df_empty df).
  - apply (at_most_more 0 1); [lia | apply at_most_ret].
  - apply at_most_call_ai.
Qed.

Lemma at_most_chart_section (df : DataFrame) (chart_type : str) :
  at_most 0 (chart_section P df chart_type).
Proof.
  intros w.
  destruct (chart_section_cases P df chart_type w)
    as [[_ H]|(x & xs & y & ys & _ & _ & H)]; rewrite H.
  - simpl. lia.
  - destruct (chart_for chart_type x y) as [c|]; [|simpl; lia].
    destruct (pyplot_error P df c); simpl; lia.
Qed.

Lemma at_most_after_question (df : option DataFrame) (s : option str)
  (chart_type : str) :
  at_most 1
    match df with
    | None => raise name_error
    | Some df =>
        c <- chart_section P df chart_type ;;
        data <- lift (to_excel P df) ;;
        text <- explain L df ;;
        ret {| sql := s; result := df; chart := c;
               excel := data; summary := text |}
    end.
Proof.
  destruct df as [df|];
    [|apply (at_most_more 0 1); [lia | apply at_most_raise]].
  apply (at_most_bind 0 1); [apply at_most_chart_section|]. intros c.
  apply (at_most_bind 0 1); [apply at_most_lift|]. intros data.
  apply (at_most_bind 1 0); [apply at_most_explain|]. intros text.
  apply at_most_ret.
Qed.

Lemma at_most_question_section (st : Store) (df : option DataFrame)
  (pressed : bool) (question : str) :
  at_most (if pressed && negb (length question =? 0) then 1 else 0)
    (question_section L st df pressed question).
Proof.
  unfold question_section.
  destruct (pressed && negb (length question =? 0)); [|apply at_most_ret].
  apply (at_most_bind 1 0); [apply at_most_ask_ai|]. intros s.
  apply (at_most_bind 0 0); [apply at_most_run_sql|]. intros d.
  apply at_most_ret.
Qed.

Lemma at_most_page (st : Store) (df : option DataFrame) (pressed : bool)
  (question chart_type : str) :
  at_most ((if pressed && negb (length question =? 0) then 1 else 0) + 1)
    (page L P st df pressed question chart_type).
Proof.
  unfold page.
  apply at_most_bind; [apply at_most_question_section|].
  intros r. apply at_most_after_question.
Qed.

Lemma at_most_script (files : list UploadedFile) (pressed : bool)
  (question chart_type : str) :
  at_most ((if pressed && negb (length question =? 0) then 1 else 0) + 1)
    (script L P files pressed question chart_type).
Proof.
  unfold script. destruct files as [|f files].
  - apply (at_most_more 0); [lia|].
    apply (at_most_bind 0 0); [apply at_most_show|].
    intros _. apply at_most_raise.
  - intros w.
    destruct (load_files_df L empty_store None (f :: files)) as [[st d]|e];
      [|simpl; lia].
    apply (at_most_bind 0 _ (show (StSuccess (lit "Data loaded")))
             (fun _ => page L P st d pressed question chart_type)
             (at_most_show _)).
    intros _. apply at_most_page.
Qed.

End Runs.

Lemma chart_section_calls (P : PageLibs) (df : DataFrame) (chart_type : str)
  (w : World) :
  calls (snd (chart_section P df chart_type w)) = calls w.
Proof.
  destruct (chart_section_cases P df chart_type w)
    as [[_ H]|(x & xs & y & ys & _ & _ & H)]; rewrite H; [reflexivity|].
  destruct (chart_for chart_type x y) as [c|]; [|reflexivity].
  now destruct (pyplot_error P df c).
Qed.

Lemma chart_drawn_columns (P : PageLibs) (df : DataFrame) (chart_type : str)
  (c : Chart) (w w' : World) :
  chart_section P df chart_type w = (Return (Some c), w') ->
  (exists i, nth_error (columns df) i = Some (x_column c)
             /\ is_number P df i = false)
  /\ (exists j, nth_error (columns df) j = Some (y_column c)
                /\ is_number P df j = true).
Proof.
  intros Hchart.
  destruct (chart_section_cases P df chart_type w)
    as [[_ H]|(x & xs & y & ys & Hx & Hy & H)];
    rewrite H in Hchart; [discriminate|].
  destruct (chart_for chart_type x y) as [c0|] eqn:Hfor; [|discriminate].
  destruct (pyplot_error P df c0); [discriminate|].
  injection Hchart as <- _.
  destruct (chart_for_columns chart_type x y c0 Hfor) as [-> ->].
  destruct (select_dtypes_head P false df _ _ Hx) as (i & Hi & Hfi & _).
  destruct (select_dtypes_head P true df _ _ Hy) as (j & Hj & Hfj & _).
  split; [now exists i | now exists j].
Qed.

(** X16.  When Run is pressed with a question and the statement the model
    gave fails to run with an [Exception], the page still comes up: it
    shows the statement and the SQL error, then "Not enough categorical +
    numeric data to create a chart.", offers the export of the empty frame
    and says "No data was returned for this question."; the only request
    sent to the model is the one for the statement. *)
Theorem failed_query_page (L : Libs) (P : PageLibs) (st : Store)
  (df0 : option DataFrame) (question chart_type raw stmt : str) (e : exn)
  (data : str) (w : World)
  (Hquestion : question <> [])
  (Hraw : create L (calls w) (request (ask_prompt (schema st) question))
          = Return raw)
  (Hstmt : first_statement (strip raw) = Return stmt)
  (Hfail : read_sql_query L stmt (conn st) = Raise e)
  (Hclass : is_exception e = true)
  (Hexcel : to_excel P empty_frame = Return data) :
  page L P st df0 true question chart_type w
  = (Return {| sql := Some stmt;
               result := empty_frame;
               chart := None;
               excel := data;
               summary := lit "No data was returned for this question." |},
     {| shown := shown w ++ [StError (lit "SQL Error: " ++ message e);
                             StInfo not_enough];
        calls := S (calls w) |}).
Proof.
  unfold page, question_section.
  destruct question as [|q question]; [congruence|].
  cbn [length Nat.eqb negb andb].
  unfold bind at 1. unfold bind at 1.
  unfold ask_ai, bind at 1, call_ai.
  rewrite Hraw, Hstmt.
  unfold bind at 1, run_sql. rewrite Hfail, Hclass.
  unfold bind, show, ret, chart_section, lift, explain. simpl.
  rewrite Hexcel. simpl. now rewrite <- app_assoc.
Qed.

Lemma failed_query_page_witness :
  exists pg w',
    page (Fake.libs (Return (lit "SELECT total FROM sales;"))) FakePage.libs
      Sample.store_with_sales_old None true (lit "what is the total")
      (lit "Bar") Sample.start
    = (Return pg, w')
    /\ summary pg = lit "No data was returned for this question."
    /\ calls w' = 1.
Proof.
  eexists. eexists. split; [|split].
  - apply (failed_query_page
             (Fake.libs (Return (lit "SELECT total FROM sales;")))
             FakePage.libs Sample.store_with_sales_old None
             (lit "what is the total") (lit "Bar")
             (lit "SELECT total FROM sales;")
             (lit "SELECT total FROM sales;")
             (Fake.error "syntax error") (lit "") Sample.start);
      [discriminate | reflexivity..].
  - reflexivity.
  - reflexivity.
Defined.

(** X17.  In a run without a question (Run not pressed, or an empty
    question) that gets to the end, no statement is shown, and the chart,
    the export and the insight are made from the frame of the file that was
    uploaded last, with its column names normalized: the chart is what the
    chart section makes of that frame, so a chart that is drawn has two
    columns of that frame as its axes, the export is [to_excel] of that
    frame, and the insight is what [explain] returns for that frame; the
    model is asked for an insight only when that frame is not empty. *)
Theorem no_question_uses_last_upload (L : Libs) (P : PageLibs)
  (files : list UploadedFile) (file : UploadedFile) (df : DataFrame)
  (pressed : bool) (question chart_type : str) (pg : Page) (w w' : World)
  (Hquiet : pressed = false \/ question = [])
  (Hread : read_csv L file = Return df)
  (Hrun : script L P (files ++ [file]) pressed question chart_type w
          = (Return pg, w')) :
  let frame :=
    {| columns := map normalize_column (columns df); rows := rows df |} in
  sql pg = None
  /\ result pg = frame
  /\ to_excel P (result pg) = Return (excel pg)
  /\ calls w' = calls w + (if df_empty df then 0 else 1)
  /\ (df_empty df = true
      -> summary pg = lit "No data was returned for this question.")
  /\ (exists w1,
         chart_section P frame chart_type
           (showing (StSuccess (lit "Data loaded")) w)
         = (Return (chart pg), w1)
         /\ explain L frame w1 = (Return (summary pg), w'))
  /\ (forall c, chart pg = Some c ->
        (exists i, nth_error (columns frame) i = Some (x_column c)
                   /\ is_number P frame i = false)
        /\ (exists j, nth_error (columns frame) j = Some (y_column c)
                      /\ is_number P frame j = true)).
Proof.
  intros frame.
  assert (Hcond : pressed && negb (length question =? 0) = false).
  { destruct Hquiet as [->| ->]; [reflexivity | apply andb_false_r]. }
  unfold script in Hrun.
  destruct (files ++ [file]) as [|f fs] eqn:Hfiles;
    [now destruct files|].
  rewrite <- Hfiles in Hrun. clear Hfiles f fs.
  destruct (load_files_df L empty_store None (files ++ [file]))
    as [[st d]|e] eqn:Hload; [|discriminate].
  apply load_files_df_last in Hload as (df' & Hread' & ->).
  rewrite Hread in Hread'. injection Hread' as <-.
  apply bind_return_inv in Hrun as ([] & w1 & Hshow & Hpage).
  injection Hshow as <-.
  unfold page, question_section in Hpage. rewrite Hcond in Hpage.
  apply bind_return_inv in Hpage as (r & w2 & Hr & Hpage).
  injection Hr as <- <-. cbn [fst snd] in Hpage.
  apply bind_return_inv in Hpage as (c & w3 & Hchart & Hpage).
  apply bind_return_inv in Hpage as (data & w4 & Hdata & Hpage).
  apply bind_return_inv in Hpage as (text & w5 & Htext & Hpage).
  injection Hpage as <- <-. injection Hdata as Hdata <-.
  change (stored_frame df) with frame in Hchart, Hdata, Htext.
  assert (Hc : calls w3 = calls w).
  { match type of Hchart with
    | chart_section _ _ _ ?w0 = _ =>
        pose proof (chart_section_calls P frame chart_type w0) as Hc
    end.
    now rewrite Hchart in Hc. }
  assert (Hinsight : calls w5 = calls w + (if df_empty df then 0 else 1)
                     /\ (df_empty df = true -> text = no_data)).
  { pose proof Htext as Ht. unfold explain in Ht.
    change (df_empty frame) with (df_empty (stored_frame df)) in Ht.
    rewrite df_empty_stored in Ht.
    destruct (df_empty df).
    - injection Ht as <- <-. split; [lia | reflexivity].
    - pose proof (call_ai_counts L
                    (explain_prompt (to_string L (head 10 frame))) w3) as Hn.
      rewrite Ht in Hn. cbn [snd] in Hn.
      split; [lia | discriminate]. }
  destruct Hinsight as [Hcalls Hnone].
  cbn [sql result excel summary chart].
  split; [reflexivity|]. split; [reflexivity|]. split; [exact Hdata|].
  split; [exact Hcalls|]. split; [exact Hnone|].
  split; [exists w3; split; [exact Hchart | exact Htext]|].
  intros c0 ->.
  exact (chart_drawn_columns P frame chart_type c0 _ _ Hchart).
Qed.

Lemma no_question_uses_last_upload_witness :
  exists pg w',
    script (Fake.libs (Return (lit "Stock is healthy."))) FakeCsv.libs
      ([Sample.sales_old] ++ [Batch.stock_csv]) false (lit "") (lit "Bar")
      Sample.start
    = (Return pg, w')
    /\ sql pg = None
    /\ result pg = {| columns := [lit "Item_Name"; lit "On_Hand"];
                      rows := [[CText (lit "pen"); CText (lit "40")]] |}
    /\ chart pg = Some {| call := AxBar; x_column := lit "Item_Name";
                          y_column := lit "On_Hand"; title := None |}
    /\ summary pg = lit "Stock is healthy."
    /\ calls w' = 1.
Proof.
  eexists. eexists. split; [reflexivity|].
  destruct (no_question_uses_last_upload
              (Fake.libs (Return (lit "Stock is healthy."))) FakeCsv.libs
              [Sample.sales_old] Batch.stock_csv
              {| columns := [lit "Item Name"; lit "On Hand"];
                 rows := [[CText (lit "pen"); CText (lit "40")]] |}
              false (lit "") (lit "Bar") _ Sample.start _
              (or_introl eq_refl) eq_refl eq_refl)
    as (H1 & H2 & _ & H4 & _).
  split; [exact H1|]. split; [exact H2|].
  split; [reflexivity|]. split; [reflexivity | exact H4].
Defined.

(** X18.  One run of the script sends at most two requests to the model,
    one for the statement and one for the insight, and at most one when no
    question is asked. *)
Theorem requests_per_run (L : Libs) (P : PageLibs)
  (files : list UploadedFile) (pressed : bool) (question chart_type : str)
  (w : World) :
  calls (snd (script L P files pressed question chart_type w)) <= calls w + 2
  /\ (pressed = false \/ question = [] ->
      calls (snd (script L P files pressed question chart_type w))
      <= calls w + 1).
Proof.
  pose proof (at_most_script L P files pressed question chart_type w) as H.
  split.
  - destruct (pressed && negb (length question =? 0)); simpl in H; lia.
  - intros Hquiet.
    assert (Hcond : pressed && negb (length question =? 0) = false).
    { destruct Hquiet as [->| ->]; [reflexivity | apply andb_false_r]. }
    rewrite Hcond in H. simpl in H. lia.
Qed.

Lemma requests_per_run_witness :
  calls (snd (script (Fake.libs (Return (lit "SELECT * FROM sales;")))
                FakePage.libs [Sample.sales_old] false
                (lit "how many pens") (lit "Line") Sample.start))
  <= 1.
Proof.
  exact (proj2 (requests_per_run
                  (Fake.libs (Return (lit "SELECT * FROM sales;")))
                  FakePage.libs [Sample.sales_old] false
                  (lit "how many pens") (lit "Line") Sample.start)
           (or_introl eq_refl)).
Defined.

(** X19.  When Run is pressed with a question and the statement the model
    gave runs, a page that comes up shows that statement, and its chart,
    export and insight are made from the result of the statement, not from
    an uploaded file: the chart is what the chart section makes of the
    result, so a chart that is drawn has two columns of the result as its
    axes, the export is [to_excel] of the result, and the insight is what
    [explain] returns for the result; the model is asked a second time only
    when the result is not empty. *)
Theorem query_result_feeds_page (L : Libs) (P : PageLibs) (st : Store)
  (df0 : option DataFrame) (question chart_type raw stmt : str)
  (answer : DataFrame) (pg : Page) (w w' : World)
  (Hquestion : question <> [])
  (Hraw : create L (calls w) (request (ask_prompt (schema st) question))
          = Return raw)
  (Hstmt : first_statement (strip raw) = Return stmt)
  (Hquery : read_sql_query L stmt (conn st) = Return answer)
  (Hpage : page L P st df0 true question chart_type w = (Return pg, w')) :
  sql pg = Some stmt
  /\ result pg = answer
  /\ to_excel P answer = Return (excel pg)
  /\ calls w' = S (calls w) + (if df_empty answer then 0 else 1)
  /\ (exists w1,
         chart_section P answer chart_type
           {| shown := shown w; calls := S (calls w) |}
         = (Return (chart pg), w1)
         /\ explain L answer w1 = (Return (summary pg), w'))
  /\ (forall c, chart pg = Some c ->
        (exists i, nth_error (columns answer) i = Some (x_column c)
                   /\ is_number P answer i = false)
        /\ (exists j, nth_error (columns answer) j = Some (y_column c)
                      /\ is_number P answer j = true)).
Proof.
  unfold page, question_section in Hpage.
  destruct question as [|q question]; [congruence|].
  cbn [length Nat.eqb negb andb] in Hpage.
  apply bind_return_inv in Hpage as (r & w1 & Hr & Hpage).
  apply bind_return_inv in Hr as (s & w2 & Hs & Hr).
  unfold ask_ai, bind, call_ai in Hs. rewrite Hraw, Hstmt in Hs.
  injection Hs as <- <-.
  apply bind_return_inv in Hr as (d & w3 & Hd & Hr).
  unfold run_sql in Hd. rewrite Hquery in Hd.
  injection Hd as <- <-. injection Hr as <- <-.
  cbn [fst snd] in Hpage.
  apply bind_return_inv in Hpage as (c & w4 & Hchart & Hpage).
  apply bind_return_inv in Hpage as (data & w5 & Hdata & Hpage).
  apply bind_return_inv in Hpage as (text & w6 & Htext & Hpage).
  injection Hpage as <- <-. injection Hdata as Hdata <-.
  assert (Hc : calls w4 = S (calls w)).
  { match type of Hchart with
    | chart_section _ _ _ ?w0 = _ =>
        pose proof (chart_section_calls P answer chart_type w0) as Hc
    end.
    now rewrite Hchart in Hc. }
  assert (Hcalls : calls w6
                   = S (calls w) + (if df_empty answer then 0 else 1)).
  { pose proof Htext as Ht. unfold explain in Ht.
    destruct (df_empty answer).
    - injection Ht as _ <-. lia.
    - pose proof (call_ai_counts L
                    (explain_prompt (to_string L (head 10 answer))) w4) as Hn.
      rewrite Ht in Hn. cbn [snd] in Hn. lia. }
  cbn [sql result excel summary chart].
  split; [reflexivity|]. split; [reflexivity|]. split; [exact Hdata|].
  split; [exact Hcalls|].
  split; [exists w4; split; [exact Hchart | exact Htext]|].
  intros c0 ->.
  exact (chart_drawn_columns P answer chart_type c0 _ _ Hchart).
Qed.

Lemma query_result_feeds_page_witness :
  exists pg w',
    page (Fake.libs (Return (lit "```sql SELECT * FROM sales; ```")))
      FakeCsv.libs Sample.store_with_sales_old None true
      (lit "show the sales") (lit "Pie") Sample.start
    = (Return pg, w')
    /\ sql pg = Some (lit "SELECT * FROM sales;")
    /\ chart pg = Some {| call := AxPie; x_column := lit "item";
                          y_column := lit "qty";
                          title := Some (lit "qty by item") |}
    /\ calls w' = 2.
Proof.
  eexists. eexists. split; [reflexivity|].
  destruct (query_result_feeds_page
              (Fake.libs (Return (lit "```sql SELECT * FROM sales; ```")))
              FakeCsv.libs Sample.store_with_sales_old None
              (lit "show the sales") (lit "Pie")
              (lit "```sql SELECT * FROM sales; ```")
              (lit "SELECT * FROM sales;")
              {| columns := [lit "item"; lit "qty"];
                 rows := [[CText (lit "pen"); CText (lit "3")];
                          [CText (lit "ink"); CText (lit "1")]] |}
              _ Sample.start _
              ltac:(discriminate) eq_refl eq_refl eq_refl eq_refl)
    as (H1 & _ & _ & H4 & _).
  split; [exact H1|]. split; [reflexivity | exact H4].
Defined.

Section UploadAndScript.

Variable L : Libs.
Variable P : PageLibs.

Lemma load_files_df_fails (files : list UploadedFile) (st : Store)
  (d : option DataFrame) (e : exn) :
  load_files L st files = Raise e -> load_files_df L st d files = Raise e.
Proof.
  revert st d. induction files as [|f files IH]; intros st d H;
    [discriminate|].
  simpl in H |- *.
  unfold load_file_df. unfold load_file in H.
  destruct (read_csv L f) as [df|e0]; simpl in H |- *; [|congruence].
  destruct (to_sql L (table_name (name f)) (conn st)
              (set_columns (map normalize_column (columns df)) df))
    as [c|e0]; simpl in H |- *; [|congruence].
  exact (IH _ _ H).
Qed.

End UploadAndScript.

(** X20.  When the upload section stops or raises, with no file or with a
    file that cannot be loaded, the run ends there: the script raises the
    same exception, shows what the upload section had shown and sends no
    request to the model. *)
Theorem failed_upload_ends_run (L : Libs) (P : PageLibs)
  (files : list UploadedFile) (pressed : bool) (question chart_type : str)
  (e : exn) (w w' : World)
  (Hupload : upload L files w = (Raise e, w')) :
  script L P files pressed question chart_type w = (Raise e, w')
  /\ calls w' = calls w.
Proof.
  unfold upload in Hupload. unfold script.
  destruct files as [|f files].
  - injection Hupload as <- <-. now split.
  - destruct (load_files L empty_store (f :: files)) as [st|e0] eqn:Hload;
      [discriminate|].
    injection Hupload as <- <-.
    now rewrite (load_files_df_fails L (f :: files) empty_store None e0 Hload).
Qed.

Lemma failed_upload_ends_run_witness :
  script Sample.libs FakePage.libs [Sample.sales_csv; Batch.clash_csv] true
    (lit "total revenue") (lit "Bar") Sample.start
  = (Raise (Fake.error "duplicate column name"), Sample.start).
Proof.
  exact (proj1 (failed_upload_ends_run Sample.libs FakePage.libs
                  [Sample.sales_csv; Batch.clash_csv] true
                  (lit "total revenue") (lit "Bar")
                  (Fake.error "duplicate column name")
                  Sample.start Sample.start eq_refl)).
Defined.

(** X21.  The upload section shows "Data loaded" exactly when there is at
    least one file and every file can be read and is accepted by the
    engine; it then shows nothing else, and with no file it shows "Upload
    CSV files to begin" and stops. *)
Theorem data_loaded_iff (L : Libs) (files : list UploadedFile) (w : World) :
  ((exists st,
       upload L files w
       = (Return st, showing (StSuccess (lit "Data loaded")) w))
   <-> files <> [] /\ Forall (loadable L) files)
  /\ upload L [] w
     = (Raise stop_exception,
        showing (StInfo (lit "Upload CSV files to begin")) w).
Proof.
  split; [|reflexivity].
  unfold upload. destruct files as [|f files].
  - split; [intros (st & H); discriminate | intros [H _]; congruence].
  - rewrite <- (load_files_loadable L (f :: files) empty_store).
    destruct (load_files L empty_store (f :: files)) as [st|e].
    + split; [intros _; split; [discriminate | now exists st]|].
      intros _. now exists st.
    + split; [intros (st & H); discriminate|].
      intros [_ (st & H)]. discriminate.
Qed.

Lemma data_loaded_iff_witness :
  exists st,
    upload Sample.libs [Sample.sales_csv; Batch.stock_csv] Sample.start
    = (Return st, showing (StSuccess (lit "Data loaded")) Sample.start).
Proof.
  apply (proj2 (proj1 (data_loaded_iff Sample.libs
                         [Sample.sales_csv; Batch.stock_csv] Sample.start))).
  split; [discriminate|].
  repeat constructor.
  - eexists. split; reflexivity.
  - eexists. split; reflexivity.
Defined.
